(** * dotprompt: the prompt data contract of [js/src/types.d.ts]

    The source file consists of TypeScript type declarations only.  Each
    declaration is embedded as a decidable predicate over JavaScript values:
    a value conforms to a type when TypeScript's structural typing would let
    it be assigned to that type.  Interfaces and object type literals keep
    their list of property declarations, so that [extends], [Omit] and the
    optional marker [?] read as they do in the source. *)

From stdpp Require Import base option list strings gmap fin_maps.

Open Scope string_scope.
Open Scope list_scope.

(** ** JavaScript values *)

(** Plain objects are finite maps from property names to values.  A promise
    is pending or settled.  Numbers are opaque to every declaration of the
    file, an integer payload stands for them. *)
#[warnings="-register-all"]
Inductive value : Type :=
| VUndefined
| VNull
| VBool (b : bool)
| VNum (n : Z)
| VStr (s : string)
| VArr (items : list value)
| VObj (props : gmap string value)
| VPending
| VFulfilled (result : value)
| VRejected (reason : value).

Definition is_undefined (v : value) : bool :=
  match v with VUndefined => true | _ => false end.

Definition is_null (v : value) : bool :=
  match v with VNull => true | _ => false end.

(** Property access [v.k]: reading a property that is not there, or reading
    from something that is not a plain object, gives no value. *)
Definition get (k : string) (v : value) : option value :=
  match v with VObj props => props !! k | _ => None end.

(** A property is populated when it is there and holds something other than
    [undefined] (the test [v.k !== undefined]). *)
Definition populated (k : string) (v : value) : bool :=
  match get k v with
  | Some x => negb (is_undefined x)
  | None => false
  end.

(** [delete v.k] *)
Definition unset (k : string) (v : value) : value :=
  match v with VObj props => VObj (delete k props) | _ => v end.

(** [v.k = x] *)
Definition assign (k : string) (x : value) (v : value) : value :=
  match v with VObj props => VObj (<[k:=x]> props) | _ => v end.

(** ** Types as predicates *)

Definition ty : Type := value → bool.

Definition t_any : ty := λ _, true.
Definition t_never : ty := λ _, false.
Definition t_null : ty := is_null.

Definition t_string : ty :=
  λ v, match v with VStr _ => true | _ => false end.

(** A string literal type such as ["user"]. *)
Definition t_str_lit (s : string) : ty :=
  λ v, match v with VStr s' => bool_decide (s' = s) | _ => false end.

(** A boolean literal type such as [true]. *)
Definition t_bool_lit (b : bool) : ty :=
  λ v, match v with VBool b' => bool_decide (b' = b) | _ => false end.

(** [A | B] and [A & B] *)
Definition t_union (A B : ty) : ty := λ v, A v || B v.
Definition t_inter (A B : ty) : ty := λ v, A v && B v.

(** [T[]] *)
Definition t_array (T : ty) : ty :=
  λ v, match v with VArr items => forallb T items | _ => false end.

(** [Record<string, any>]: a string index signature of type [any] accepts
    every value that is not a primitive. *)
Definition t_record_any : ty :=
  λ v, match v with
       | VUndefined | VNull | VBool _ | VNum _ | VStr _ => false
       | VArr _ | VObj _ | VPending | VFulfilled _ | VRejected _ => true
       end.

(** [Promise<T>]: a promise that, once fulfilled, holds a [T].  A pending or
    a rejected promise says nothing about [T]. *)
Definition t_promise (T : ty) : ty :=
  λ v, match v with
       | VPending | VRejected _ => true
       | VFulfilled r => T r
       | _ => false
       end.

(** ** Object types *)

(** One property declaration: [name: T] or [name?: T]. *)
Record prop_decl : Type := Prop_decl {
  pname : string;
  poptional : bool;
  ptype : ty
}.

(** The members of an interface or of an object type literal. *)
Abbreviation members := (list prop_decl) (only parsing).

Notation "k ':!' T" := (Prop_decl k false T) (at level 60, no associativity).
Notation "k ':?' T" := (Prop_decl k true T) (at level 60, no associativity).

(** A required property has to be there with a value of its type.  An
    optional one may be missing, or hold [undefined]. *)
Definition has_prop (props : gmap string value) (d : prop_decl) : bool :=
  match props !! pname d with
  | Some x => ptype d x || (poptional d && is_undefined x)
  | None => poptional d
  end.

(** The type of the plain objects that have the declared members; other
    properties are left free (structural typing).  This is conformance of
    a value to the declared shape.  The compiler's check of weak types,
    which looks at the static type an expression comes with, is kept apart
    in [weak_check] below. *)
Definition t_object (ms : members) : ty :=
  λ v, match v with
       | VObj props => forallb (has_prop props) ms
       | _ => false
       end.

(** [Omit<I, k>] drops the declaration of [k]. *)
Definition Omit (ms : members) (k : string) : members :=
  filter (λ d, pname d ≠ k) ms.

(** Whether every declaration of [k] among [ms] is optional. *)
Definition optional_in (k : string) (ms : members) : bool :=
  forallb (λ d, implb (bool_decide (pname d = k)) (poptional d)) ms.

(** Whether every declaration of [k] among [ms] accepts the value [x]. *)
Definition takes (k : string) (x : value) (ms : members) : bool :=
  forallb (λ d, implb (bool_decide (pname d = k)) (ptype d x)) ms.

(** A weak type has members, all of them optional. *)
Definition weak (ms : members) : bool :=
  match ms with
  | [] => false
  | _ :: _ => forallb poptional ms
  end.

(** Whether a value has one of the declared properties, and whether it has
    no property at all. *)
Definition shares_property (ms : members) (v : value) : bool :=
  match v with
  | VObj props => existsb (λ d, bool_decide (is_Some (props !! pname d))) ms
  | _ => false
  end.

Definition has_no_property (v : value) : bool :=
  match v with
  | VObj props => Nat.eqb (size props) 0
  | _ => false
  end.

(** The check of weak types (error TS2559): a value typed afresh against a
    weak type has to share a property with it, unless it has none at
    all. *)
Definition weak_check (ms : members) (v : value) : bool :=
  negb (weak ms) || has_no_property v || shares_property ms v.

(** An object literal [{ k1: v1, ... }]. *)
Definition obj (l : list (string * value)) : value := VObj (list_to_map l).

(** ** Call signatures *)

(** A call signature [(p1: T1, p2?: T2): R].  Parameters are declared like
    properties, with a name, an optional marker and a type. *)
Record signature : Type := Signature {
  params : list prop_decl;
  returns : ty
}.

(** The argument lists a call may pass: one argument per parameter, in
    order; trailing optional parameters may be left out, and an optional
    parameter may be passed [undefined]. *)
Fixpoint accepts (ps : list prop_decl) (args : list value) : bool :=
  match ps, args with
  | [], [] => true
  | [], _ :: _ => false
  | p :: ps', [] => poptional p && accepts ps' []
  | p :: ps', a :: args' =>
      (ptype p a || (poptional p && is_undefined a)) && accepts ps' args'
  end.

(** A function value, seen through what it returns on an argument list. *)
Definition function : Type := list value → value.

(** [f] has call signature [s] when every accepted call returns a value of
    the declared return type.  Only results are constrained: a function
    value carries no parameter list of its own here, so this is used as an
    assumption on a given resolver or prompt, never to show that a function
    has a signature. *)
Definition implements (s : signature) (f : function) : Prop :=
  ∀ args, accepts (params s) args = true → returns s (f args) = true.

(** ** The declarations of [types.d.ts] *)

(** [export type Schema = Record<string, any>] *)
Definition Schema : ty := t_record_any.

(** [export interface ToolDefinition] *)
Definition ToolDefinition : members :=
  [ "name" :! t_string;
    "description" :? t_string;
    "inputSchema" :! Schema;
    "outputSchema" :? Schema ].

(** [export type ToolArgument = string | ToolDefinition] *)
Definition ToolArgument : ty := t_union t_string (t_object ToolDefinition).

(** [interface HasMetadata] *)
Definition HasMetadata : members :=
  [ "metadata" :? t_record_any ].

(** [export interface PromptMetadata<ModelConfig = Record<string, any>>
    extends HasMetadata] *)
Definition PromptMetadata (ModelConfig : ty) : members :=
  HasMetadata ++
  [ "name" :? t_string;
    "variant" :? t_string;
    "model" :? t_string;
    "tools" :? t_array t_string;
    "toolDefs" :? t_array (t_object ToolDefinition);
    "config" :? ModelConfig;
    "input" :? t_object [ "default" :? t_record_any; "schema" :? Schema ];
    "output" :? t_object
      [ "format" :? t_union t_string (t_union (t_str_lit "json") (t_str_lit "text"));
        "schema" :? Schema ] ].

(** [interface EmptyPart extends HasMetadata] *)
Definition EmptyPart : members :=
  HasMetadata ++
  [ "text" :? t_never;
    "data" :? t_never;
    "media" :? t_never;
    "toolRequest" :? t_never;
    "toolResponse" :? t_never ].

(** [export type TextPart = Omit<EmptyPart, "text"> & { text: string }],
    and likewise for the other variants that carry a payload. *)
Definition TextPart : ty :=
  t_inter (t_object (Omit EmptyPart "text"))
          (t_object [ "text" :! t_string ]).

Definition DataPart : ty :=
  t_inter (t_object (Omit EmptyPart "data"))
          (t_object [ "data" :! t_record_any ]).

Definition MediaPart : ty :=
  t_inter (t_object (Omit EmptyPart "media"))
          (t_object [ "media" :! t_object [ "url" :! t_string; "contentType" :? t_string ] ]).

(** [ToolRequestPart<Input = any>] *)
Definition ToolRequestPart (Input : ty) : ty :=
  t_inter (t_object (Omit EmptyPart "toolRequest"))
          (t_object [ "toolRequest" :!
             t_object [ "name" :! t_string; "input" :? Input; "ref" :? t_string ] ]).

(** [ToolResponsePart<Output = any>] *)
Definition ToolResponsePart (Output : ty) : ty :=
  t_inter (t_object (Omit EmptyPart "toolResponse"))
          (t_object [ "toolResponse" :!
             t_object [ "name" :! t_string; "output" :? Output; "ref" :? t_string ] ]).

(** [PendingPart]: the index signature [[key: string]: any] of the metadata
    object puts no condition on its other properties. *)
Definition PendingPart : ty :=
  t_inter (t_object EmptyPart)
          (t_object [ "metadata" :! t_object [ "pending" :! t_bool_lit true ] ]).

(** The members of the union [export type Part], in the order of the
    source. *)
Definition Part_variants : list ty :=
  [ TextPart; DataPart; MediaPart; ToolRequestPart t_any;
    ToolResponsePart t_any; PendingPart ].

Definition Part : ty :=
  t_union TextPart
    (t_union DataPart
       (t_union MediaPart
          (t_union (ToolRequestPart t_any)
             (t_union (ToolResponsePart t_any) PendingPart)))).

(** [export interface Message extends HasMetadata] *)
Definition Message : members :=
  HasMetadata ++
  [ "role" :! t_union (t_str_lit "user")
                (t_union (t_str_lit "model")
                   (t_union (t_str_lit "tool") (t_str_lit "system")));
    "content" :! t_array Part ].

(** [export interface Document extends HasMetadata] *)
Definition Document : members :=
  HasMetadata ++ [ "content" :! t_array Part ].

(** [export interface DataArgument<Variables = any, State = any>] *)
Definition DataArgument (Variables State : ty) : members :=
  [ "input" :? Variables;
    "docs" :? t_array (t_object Document);
    "messages" :? t_array (t_object Message);
    "context" :? t_record_any ].

(** [export type JSONSchema = any] *)
Definition JSONSchema : ty := t_any.

(** [export interface SchemaResolver] *)
Definition SchemaResolver : signature :=
  {| params := [ "schemaName" :! t_string ];
     returns := t_union JSONSchema
                  (t_union t_null (t_promise (t_union JSONSchema t_null))) |}.

(** [export interface ToolResolver] *)
Definition ToolResolver : signature :=
  {| params := [ "toolName" :! t_string ];
     returns := t_union (t_object ToolDefinition)
                  (t_union t_null
                     (t_promise (t_union (t_object ToolDefinition) t_null))) |}.

(** [export interface RenderedPrompt<ModelConfig = Record<string, any>>
    extends PromptMetadata<ModelConfig>] *)
Definition RenderedPrompt (ModelConfig : ty) : members :=
  PromptMetadata ModelConfig ++
  [ "messages" :! t_array (t_object Message) ].

(** [export interface CompiledPrompt<ModelConfig = Record<string, any>>] *)
Definition CompiledPrompt (ModelConfig : ty) : signature :=
  {| params := [ "data" :! t_object (DataArgument t_any t_any);
                 "options" :? t_object (PromptMetadata ModelConfig) ];
     returns := t_promise (t_object (RenderedPrompt ModelConfig)) |}.

(** ** Sample values *)

Definition hello_part : value := obj [("text", VStr "Hello Ana")].
Definition pending_part : value :=
  obj [("metadata", obj [("pending", VBool true)])].
Definition hello_message : value :=
  obj [("role", VStr "user"); ("content", VArr [hello_part])].

Definition hello_rendered : value := obj [("messages", VArr [hello_message])].

(** A compiled prompt for the template [Hello {{name}}]: it always renders
    the same message. *)
Definition hello_prompt : function :=
  λ _, VFulfilled hello_rendered.

Definition ana_data : value := obj [("input", obj [("name", VStr "Ana")])].

Definition png_media : value := obj [("contentType", VStr "image/png")].
Definition png_without_url : value := obj [("media", png_media)].

Definition search_tool : value :=
  obj [("name", VStr "search"); ("inputSchema", obj [])].

Definition search_request : value :=
  obj [("toolRequest",
        obj [("name", VStr "search"); ("input", obj [("q", VStr "rocq")]);
             ("ref", VStr "call-1")])].

Definition search_response : value :=
  obj [("toolResponse",
        obj [("name", VStr "search"); ("output", VArr [VStr "rocq-prover.org"]);
             ("ref", VStr "call-1")])].

Definition trace_metadata : value := obj [("trace", VStr "t-1")].

(** A tool registry that knows one tool and answers at once. *)
Definition search_registry : function :=
  λ args, match args with
          | [VStr n] => if String.eqb n "search" then search_tool else VNull
          | _ => VNull
          end.


(** ** Resolver results *)




(** ** Payloads and variants *)

(** The five payload properties of a part, and those a value populates. *)
Definition payload_fields : list string :=
  [ "text"; "data"; "media"; "toolRequest"; "toolResponse" ].

Definition populated_payloads (v : value) : list string :=
  List.filter (λ k, populated k v) payload_fields.

(** The shape that marks a pending part: [v.metadata.pending === true]. *)
Definition marked_pending (v : value) : Prop :=
  ∃ m, get "metadata" v = Some m ∧ get "pending" m = Some (VBool true).

(** The variants that carry a payload: all of [Part_variants] but
    [PendingPart]. *)
Definition payload_variants : list ty :=
  [ TextPart; DataPart; MediaPart; ToolRequestPart t_any;
    ToolResponsePart t_any ].

(** The interfaces that extend [HasMetadata], directly or through
    [PromptMetadata]. *)
Definition metadata_holders (ModelConfig : ty) : list members :=
  [ PromptMetadata ModelConfig; RenderedPrompt ModelConfig; Message; Document ].

(** ** Reading arrays *)

(** The roles of a [Message], in the order of the source. *)
Definition roles : list string := [ "user"; "model"; "tool"; "system" ].

(** The elements of the array that property [k] holds; none when the
    property is missing or holds something else. *)
Definition array_at (k : string) (v : value) : list value :=
  match get k v with
  | Some (VArr items) => items
  | _ => []
  end.

(** [v.messages.flatMap(m => m.content)] and [v.docs.flatMap(d => d.content)] *)
Definition message_parts (v : value) : list value :=
  array_at "messages" v ≫= array_at "content".

Definition document_parts (v : value) : list value :=
  array_at "docs" v ≫= array_at "content".

(** What a part populates: one payload, or none under the pending mark. *)
Definition one_payload_or_pending (p : value) : Prop :=
  (∃ k, populated_payloads p = [k]) ∨
  (populated_payloads p = [] ∧ marked_pending p).

(** What writing [x] to property [k] asks of the declarations of [k]:
    each accepts [x], or is optional when [x] is [undefined]. *)
Definition writable (k : string) (x : value) (ms : members) : bool :=
  forallb (λ d, implb (bool_decide (pname d = k))
                  (ptype d x || (poptional d && is_undefined x))) ms.

(** More sample values. *)
Definition greeting_doc : value := obj [("content", VArr [hello_part])].

Definition greeting_metadata : value :=
  obj [("name", VStr "greeting"); ("tools", VArr [VStr "search"]);
       ("toolDefs", VArr [search_tool])].



Definition history_data : value :=
  obj [("messages", VArr [hello_message]); ("docs", VArr [greeting_doc])].

(** ** Reading the declarations *)

Example hello_part_ok : Part hello_part = true.
Proof. vm_compute. reflexivity. Qed.
Example pending_part_ok : Part pending_part = true.
Proof. vm_compute. reflexivity. Qed.
Example hello_message_ok : t_object Message hello_message = true.
Proof. vm_compute. reflexivity. Qed.
Example empty_not_part : Part (obj []) = false.
Proof. vm_compute. reflexivity. Qed.
Example hello_part_variant :
  TextPart ∈ payload_variants ∧ TextPart hello_part = true.
Proof. split; [apply list_elem_of_here | vm_compute; reflexivity]. Qed.
Example pending_part_variant : PendingPart pending_part = true.
Proof. vm_compute. reflexivity. Qed.
Example search_tool_ok : t_object ToolDefinition search_tool = true.
Proof. vm_compute. reflexivity. Qed.
Example search_request_ok :
  ToolRequestPart t_any
    (obj [("toolRequest", obj [("name", VStr "search"); ("ref", VStr "r1")])]) = true.
Proof. vm_compute. reflexivity. Qed.
Example search_response_ok :
  ToolResponsePart t_any
    (obj [("toolResponse", obj [("name", VStr "search"); ("output", VNum 3)])]) = true.
Proof. vm_compute. reflexivity. Qed.
Example payload_with_undefined :
  Part (obj [("text", VStr "hi"); ("data", VUndefined)]) = true ∧
  Part (obj [("text", VStr "hi"); ("data", obj [])]) = false.
Proof. split; vm_compute; reflexivity. Qed.
Example wrong_role : t_object Message (obj [("role", VStr "bot"); ("content", VArr [])]) = false.
Proof. vm_compute. reflexivity. Qed.

(** *** Object types *)

Lemma t_object_inv (ms : members) (v : value) :
  t_object ms v = true → ∃ props, v = VObj props.
Proof. destruct v; simpl; try discriminate. eauto. Qed.

Lemma t_inter_object_inv (A : ty) (ms : members) (v : value) :
  t_inter A (t_object ms) v = true → ∃ props, v = VObj props.
Proof.
  unfold t_inter. intros [_ H]%andb_true_iff. by apply t_object_inv in H.
Qed.

Lemma t_object_cons (d : prop_decl) (ms : members) (props : gmap string value) :
  t_object (d :: ms) (VObj props) = has_prop props d && t_object ms (VObj props).
Proof. reflexivity. Qed.

Lemma t_object_nil (props : gmap string value) : t_object [] (VObj props) = true.
Proof. reflexivity. Qed.

Lemma t_object_app (ms1 ms2 : members) (v : value) :
  t_object (ms1 ++ ms2) v = t_object ms1 v && t_object ms2 v.
Proof. destruct v; simpl; try reflexivity. apply forallb_app. Qed.

Lemma t_object_Forall (ms : members) (props : gmap string value) :
  t_object ms (VObj props) = true ↔ Forall (λ d, has_prop props d = true) ms.
Proof.
  induction ms as [|d ms IH].
  - split; [constructor | reflexivity].
  - rewrite t_object_cons, andb_true_iff, IH, Forall_cons. reflexivity.
Qed.

(** A property declared [k?: never] is exactly a property that is not
    populated. *)
Lemma has_prop_never (k : string) (props : gmap string value) :
  has_prop props (k :? t_never) = negb (populated k (VObj props)).
Proof.
  unfold has_prop, populated, get; simpl.
  destruct (props !! k) as [x|]; [destruct x|]; reflexivity.
Qed.

(** A required property whose type excludes [undefined] is populated. *)
Lemma has_prop_required (k : string) (T : ty) (props : gmap string value) :
  T VUndefined = false →
  has_prop props (k :! T) = true →
  ∃ x, props !! k = Some x ∧ T x = true ∧ populated k (VObj props) = true.
Proof.
  unfold has_prop, populated, get; simpl. intros HT.
  destruct (props !! k) as [x|]; [|discriminate].
  rewrite orb_false_r. intros Hx. exists x. repeat split; [done|].
  destruct x; try reflexivity. congruence.
Qed.

(** An optional property only constrains the value it holds. *)
Lemma has_prop_optional (k : string) (T : ty) (props : gmap string value) :
  has_prop props (k :? T) = true ↔
  ∀ x, props !! k = Some x → T x = true ∨ x = VUndefined.
Proof.
  unfold has_prop; simpl. destruct (props !! k) as [x|].
  - rewrite orb_true_iff. split.
    + intros [H|H] y [= <-]; [by left | right; by destruct x].
    + intros H. destruct (H x eq_refl) as [->| ->]; [by left | by right].
  - split; [intros _ x [=] | reflexivity].
Qed.

(** *** The members that [Omit] leaves *)

Lemma Omit_text : Omit EmptyPart "text" =
  HasMetadata ++ [ "data" :? t_never; "media" :? t_never;
                   "toolRequest" :? t_never; "toolResponse" :? t_never ].
Proof. reflexivity. Qed.

Lemma Omit_data : Omit EmptyPart "data" =
  HasMetadata ++ [ "text" :? t_never; "media" :? t_never;
                   "toolRequest" :? t_never; "toolResponse" :? t_never ].
Proof. reflexivity. Qed.

Lemma Omit_media : Omit EmptyPart "media" =
  HasMetadata ++ [ "text" :? t_never; "data" :? t_never;
                   "toolRequest" :? t_never; "toolResponse" :? t_never ].
Proof. reflexivity. Qed.

Lemma Omit_toolRequest : Omit EmptyPart "toolRequest" =
  HasMetadata ++ [ "text" :? t_never; "data" :? t_never;
                   "media" :? t_never; "toolResponse" :? t_never ].
Proof. reflexivity. Qed.

Lemma Omit_toolResponse : Omit EmptyPart "toolResponse" =
  HasMetadata ++ [ "text" :? t_never; "data" :? t_never;
                   "media" :? t_never; "toolRequest" :? t_never ].
Proof. reflexivity. Qed.

(** *** Which payloads each variant populates *)

(** Brings a hypothesis [V (VObj props) = true], for a variant [V] built
    from [EmptyPart], to facts on the populated properties. *)
Ltac open_variant H :=
  unfold t_inter in H;
  rewrite ?Omit_text, ?Omit_data, ?Omit_media, ?Omit_toolRequest,
    ?Omit_toolResponse in H;
  unfold EmptyPart in H;
  rewrite ?t_object_app, ?t_object_cons, ?t_object_nil, ?has_prop_never in H;
  rewrite ?andb_true_iff, ?negb_true_iff in H.

Ltac payloads :=
  unfold populated_payloads, payload_fields; simpl List.filter;
  repeat match goal with
         | H : populated ?k ?v = _ |- context [populated ?k ?v] => rewrite H
         end.

(** A variant written [Omit<EmptyPart, k> & { k: T }] populates [k] and no
    other payload. *)
Lemma payload_variant (k : string) (T : ty) (v : value) :
  k ∈ payload_fields → T VUndefined = false →
  t_inter (t_object (Omit EmptyPart k)) (t_object [ k :! T ]) v = true →
  populated_payloads v = [k].
Proof.
  intros Hk HT H. destruct (t_inter_object_inv _ _ v H) as [props ->].
  unfold payload_fields in Hk.
  repeat (apply elem_of_cons in Hk as [->|Hk]); [..|by apply elem_of_nil in Hk];
    open_variant H;
    destruct H as [(_ & ? & ? & ? & ? & _) [Ht _]];
    apply has_prop_required in Ht as (? & _ & _ & ?); try done;
    by payloads.
Qed.

Lemma TextPart_payload (v : value) :
  TextPart v = true → populated_payloads v = ["text"].
Proof. apply payload_variant; [apply list_elem_of_here | done]. Qed.

Lemma DataPart_payload (v : value) :
  DataPart v = true → populated_payloads v = ["data"].
Proof.
  apply payload_variant; [|done].
  apply list_elem_of_further, list_elem_of_here.
Qed.

Lemma MediaPart_payload (v : value) :
  MediaPart v = true → populated_payloads v = ["media"].
Proof.
  apply payload_variant; [|done].
  do 2 apply list_elem_of_further. apply list_elem_of_here.
Qed.

Lemma ToolRequestPart_payload (Input : ty) (v : value) :
  ToolRequestPart Input v = true → populated_payloads v = ["toolRequest"].
Proof.
  apply payload_variant; [|done].
  do 3 apply list_elem_of_further. apply list_elem_of_here.
Qed.

Lemma ToolResponsePart_payload (Output : ty) (v : value) :
  ToolResponsePart Output v = true → populated_payloads v = ["toolResponse"].
Proof.
  apply payload_variant; [|done].
  do 4 apply list_elem_of_further. apply list_elem_of_here.
Qed.

Lemma PendingPart_payload (v : value) :
  PendingPart v = true → populated_payloads v = [] ∧ marked_pending v.
Proof.
  intros H. destruct (t_inter_object_inv _ _ v H) as [props ->].
  unfold PendingPart in H. open_variant H.
  destruct H as [(_ & ? & ? & ? & ? & ? & _) [Hm _]].
  split; [by payloads|].
  apply has_prop_required in Hm as (m & Hm & Hp & _); [|done].
  destruct (t_object_inv _ _ Hp) as [mprops ->].
  rewrite t_object_cons, andb_true_iff in Hp. destruct Hp as [Hp _].
  apply has_prop_required in Hp as (b & Hb & Hlit & _); [|done].
  exists (VObj mprops). split; [done|]. simpl. rewrite Hb.
  destruct b as [| |[]| | | | | | |]; by try discriminate.
Qed.

Lemma Part_variants_union (v : value) :
  Part v = existsb (λ V : ty, V v) Part_variants.
Proof. unfold Part, t_union; simpl. by rewrite orb_false_r. Qed.

(** *** Arrays and promises *)

Lemma t_array_Forall (T : ty) (v : value) :
  t_array T v = true ↔ ∃ items, v = VArr items ∧ Forall (λ x, T x = true) items.
Proof.
  split.
  - destruct v; simpl; try discriminate. intros H. eexists; split; [done|].
    apply Forall_forall. intros x Hx. apply list_elem_of_In in Hx.
    revert x Hx. by apply forallb_forall.
  - intros (items & -> & H). simpl. apply forallb_forall. intros x Hx.
    apply list_elem_of_In in Hx. revert x Hx. by apply Forall_forall.
Qed.

Lemma t_promise_inv (T : ty) (v : value) :
  t_promise T v = true →
  v = VPending ∨ (∃ e, v = VRejected e) ∨ (∃ r, v = VFulfilled r ∧ T r = true).
Proof. destruct v; simpl; try discriminate; eauto. Qed.

(** *** Leaving out and writing a property *)

(** The empty object has a type exactly when all its members are
    optional. *)
Lemma t_object_empty (ms : members) :
  t_object ms (VObj ∅) = forallb poptional ms.
Proof.
  induction ms as [|d ms IH]; [done|].
  rewrite t_object_cons, IH. unfold has_prop. by rewrite lookup_empty.
Qed.

Section property_updates.
Context (k : string).

Lemma has_prop_delete (props : gmap string value) (d : prop_decl) :
  implb (bool_decide (pname d = k)) (poptional d) = true →
  has_prop props d = true → has_prop (delete k props) d = true.
Proof.
  unfold has_prop. case_bool_decide as Hk; simpl.
  - subst k. rewrite lookup_delete_eq. by intros ->.
  - by rewrite lookup_delete_ne.
Qed.

Lemma has_prop_insert (x : value) (props : gmap string value)
    (d : prop_decl) :
  implb (bool_decide (pname d = k)) (ptype d x) = true →
  has_prop props d = true → has_prop (<[k:=x]> props) d = true.
Proof.
  unfold has_prop. case_bool_decide as Hk; simpl.
  - subst k. rewrite lookup_insert_eq. by intros ->.
  - by rewrite lookup_insert_ne.
Qed.

(** An optional property can be left out. *)
Lemma t_object_unset (ms : members) (v : value) :
  optional_in k ms = true →
  t_object ms v = true → t_object ms (unset k v) = true.
Proof.
  destruct v as [| | | | | |props| | |]; try done.
  induction ms as [|d ms IH]; [done|]. unfold optional_in; simpl.
  rewrite !andb_true_iff. intros [Hd Hms] [H1 H2]. split.
  - by apply has_prop_delete.
  - by apply IH.
Qed.

(** A property can be written with any value its declarations accept. *)
Lemma t_object_assign (x : value) (ms : members) (v : value) :
  takes k x ms = true →
  t_object ms v = true → t_object ms (assign k x v) = true.
Proof.
  destruct v as [| | | | | |props| | |]; try done.
  induction ms as [|d ms IH]; [done|]. unfold takes; simpl.
  rewrite !andb_true_iff. intros [Hd Hms] [H1 H2]. split.
  - by apply has_prop_insert.
  - by apply IH.
Qed.

Lemma t_inter_unset (A B : members) (v : value) :
  optional_in k A = true → optional_in k B = true →
  t_inter (t_object A) (t_object B) v = true →
  t_inter (t_object A) (t_object B) (unset k v) = true.
Proof.
  unfold t_inter. rewrite !andb_true_iff. intros HA HB [H1 H2].
  split; by apply t_object_unset.
Qed.

Lemma t_inter_assign (x : value) (A B : members) (v : value) :
  takes k x A = true → takes k x B = true →
  t_inter (t_object A) (t_object B) v = true →
  t_inter (t_object A) (t_object B) (assign k x v) = true.
Proof.
  unfold t_inter. rewrite !andb_true_iff. intros HA HB [H1 H2].
  split; by apply t_object_assign.
Qed.

Lemma populated_unset_ne (j : string) (v : value) :
  k ≠ j → populated j (unset k v) = populated j v.
Proof.
  intros Hne. destruct v; try done.
  unfold populated; simpl. by rewrite lookup_delete_ne.
Qed.

Lemma get_unset_eq (v : value) : get k (unset k v) = None.
Proof. destruct v; try done. simpl. apply lookup_delete_eq. Qed.

End property_updates.

Lemma populated_payloads_unset_metadata (v : value) :
  populated_payloads (unset "metadata" v) = populated_payloads v.
Proof.
  unfold populated_payloads, payload_fields; simpl.
  by rewrite !(populated_unset_ne "metadata").
Qed.

(** What a value of [Part] populates, whichever variant it has. *)
Lemma Part_payloads (v : value) :
  Part v = true →
  (∃ k, populated_payloads v = [k]) ∨
  (populated_payloads v = [] ∧ marked_pending v).
Proof.
  rewrite Part_variants_union. simpl. rewrite !orb_true_iff.
  intros [H|[H|[H|[H|[H|[H|H]]]]]]; [| | | | | |done].
  - left. eexists. by apply TextPart_payload.
  - left. eexists. by apply DataPart_payload.
  - left. eexists. by apply MediaPart_payload.
  - left. eexists. by eapply ToolRequestPart_payload.
  - left. eexists. by eapply ToolResponsePart_payload.
  - right. by apply PendingPart_payload.
Qed.

(** *** Required members *)

Lemma has_prop_required_iff (k : string) (T : ty) (props : gmap string value) :
  has_prop props (k :! T) = true ↔ ∃ x, props !! k = Some x ∧ T x = true.
Proof.
  unfold has_prop; simpl. destruct (props !! k) as [x|].
  - rewrite orb_false_r. split; [eauto | by intros (? & [= <-] & ?)].
  - split; [done | by intros (? & [=] & _)].
Qed.

Lemma t_string_inv (x : value) : t_string x = true ↔ ∃ s, x = VStr s.
Proof.
  split; [|by intros [s ->]].
  destruct x; simpl; try discriminate. eauto.
Qed.

(** Turns the lookups of an object literal into their values. *)
Ltac literal :=
  unfold obj; simpl; unfold has_prop; simpl; simplify_map_eq.

Lemma takes_single (k : string) (x : value) (T : ty) (o : bool) :
  takes k x [Prop_decl k o T] = T x.
Proof.
  unfold takes. cbn [forallb pname ptype].
  rewrite bool_decide_eq_true_2 by done. simpl. apply andb_true_r.
Qed.

(** A required property cannot be left out. *)
Lemma t_object_unset_required (k : string) (T : ty) (ms : members) (v : value) :
  (k :! T) ∈ ms → t_object ms (unset k v) = false.
Proof.
  intros Hin. destruct v as [| | | | | |props| | |]; try done. simpl.
  apply not_true_iff_false. intros H.
  apply (proj1 (t_object_Forall ms (delete k props))) in H.
  rewrite Forall_forall in H. specialize (H _ Hin).
  unfold has_prop in H; simpl in H. by rewrite lookup_delete_eq in H.
Qed.

Lemma populated_payload_elem (k : string) (v : value) :
  k ∈ payload_fields → populated k v = true → k ∈ populated_payloads v.
Proof.
  intros Hk Hp. apply list_elem_of_In, filter_In. split; [|done].
  by apply list_elem_of_In.
Qed.

(** A part that populates [media] is a [MediaPart]. *)
Lemma Part_media (v : value) :
  populated "media" v = true → Part v = true → MediaPart v = true.
Proof.
  intros Hp%(populated_payload_elem "media" v); 
    [|do 2 apply list_elem_of_further; apply list_elem_of_here].
  rewrite Part_variants_union. simpl. rewrite !orb_true_iff.
  intros [H|[H|[H|[H|[H|[H|H]]]]]]; try done.
  - apply TextPart_payload in H. rewrite H in Hp.
    by apply list_elem_of_singleton in Hp.
  - apply DataPart_payload in H. rewrite H in Hp.
    by apply list_elem_of_singleton in Hp.
  - apply ToolRequestPart_payload in H. rewrite H in Hp.
    by apply list_elem_of_singleton in Hp.
  - apply ToolResponsePart_payload in H. rewrite H in Hp.
    by apply list_elem_of_singleton in Hp.
  - apply PendingPart_payload in H as [H _]. rewrite H in Hp.
    by apply elem_of_nil in Hp.
Qed.

Lemma MediaPart_Part (v : value) : MediaPart v = true → Part v = true.
Proof.
  intros H. rewrite Part_variants_union. simpl. rewrite H.
  by rewrite !orb_true_r.
Qed.

(** [Omit<I, k>] leaves no declaration of [k], so [k] can then be written
    with any value. *)
Lemma takes_Omit (ms : members) (k : string) (x : value) :
  takes k x (Omit ms k) = true.
Proof.
  unfold takes, Omit. induction ms as [|d ms IH]; [done|].
  rewrite filter_cons. case_decide as Hd; [|done].
  simpl. by rewrite bool_decide_eq_false_2, IH.
Qed.

(** A variant whose payload [k] is an object with a required string [name]:
    the payload can be replaced by any object of the same type, and not by
    one without the name. *)
Lemma named_payload (k : string) (rest : members) (v : value) :
  t_inter (t_object (Omit EmptyPart k))
          (t_object [ k :! t_object (("name" :! t_string) :: rest) ]) v = true →
  ∃ r n, get k v = Some r ∧ get "name" r = Some (VStr n) ∧
    t_object (("name" :! t_string) :: rest) r = true ∧
    (∀ r', t_object (("name" :! t_string) :: rest) r' = true →
       t_inter (t_object (Omit EmptyPart k))
         (t_object [ k :! t_object (("name" :! t_string) :: rest) ])
         (assign k r' v) = true) ∧
    t_inter (t_object (Omit EmptyPart k))
      (t_object [ k :! t_object (("name" :! t_string) :: rest) ])
      (assign k (unset "name" r) v) = false.
Proof.
  intros H. pose proof H as H'.
  destruct (t_inter_object_inv _ _ v H) as [props ->].
  unfold t_inter in H. apply andb_true_iff in H as [_ H].
  rewrite t_object_cons, andb_true_iff, has_prop_required_iff in H.
  destruct H as [(r & Hr & Hobj) _].
  destruct (t_object_inv _ _ Hobj) as [rprops ->]. pose proof Hobj as Hname.
  rewrite t_object_cons, andb_true_iff, has_prop_required_iff in Hname.
  destruct Hname as [(x & Hx & (n & ->)%t_string_inv) _].
  exists (VObj rprops), n. repeat split; try done.
  - intros r' Hr'. revert H'. apply t_inter_assign; [apply takes_Omit|].
    by rewrite takes_single.
  - unfold t_inter. apply andb_false_iff. right.
    cbn [assign]. rewrite t_object_cons. apply andb_false_iff. left.
    unfold has_prop; cbn [pname ptype poptional].
    rewrite lookup_insert_eq, orb_false_r.
    apply (t_object_unset_required "name" t_string), list_elem_of_here.
Qed.

(** ** The claims *)

(** C1: every value of the union [Part] belongs to exactly one of its six
    variants, and either populates exactly one of the payload properties
    text, data, media, toolRequest and toolResponse, or populates none of
    them and carries a metadata object whose [pending] is [true]. *)
Theorem Part_one_payload_or_pending (v : value) :
  Part v = true →
  length (List.filter (λ V : ty, V v) Part_variants) = 1 ∧
  ((∃ k, populated_payloads v = [k]) ∨
   (populated_payloads v = [] ∧ marked_pending v)).
Proof.
  intros HP. rewrite Part_variants_union in HP.
  pose proof (TextPart_payload v) as H1.
  pose proof (DataPart_payload v) as H2.
  pose proof (MediaPart_payload v) as H3.
  pose proof (ToolRequestPart_payload t_any v) as H4.
  pose proof (ToolResponsePart_payload t_any v) as H5.
  pose proof (PendingPart_payload v) as H6.
  unfold Part_variants in *. simpl in HP |- *.
  destruct (TextPart v), (DataPart v), (MediaPart v),
    (ToolRequestPart t_any v), (ToolResponsePart t_any v), (PendingPart v);
    simpl in HP |- *; try discriminate HP;
    repeat match goal with
           | H : true = true → _ |- _ => specialize (H eq_refl)
           | H : false = true → _ |- _ => clear H
           end;
    try destruct H6 as [H6 H6']; try congruence;
    (split; [reflexivity|]); eauto.
Qed.

(** The pending placeholder: no payload, [metadata.pending] is [true]. *)
Lemma Part_one_payload_or_pending_witness :
  Part pending_part = true ∧
  length (List.filter (λ V : ty, V pending_part) Part_variants) = 1 ∧
  ((∃ k, populated_payloads pending_part = [k]) ∨
   (populated_payloads pending_part = [] ∧ marked_pending pending_part)).
Proof.
  split; [vm_compute; reflexivity|].
  apply (Part_one_payload_or_pending pending_part). vm_compute. reflexivity.
Defined.

(** C2: a value is a [RenderedPrompt] exactly when it is a
    [PromptMetadata] and has a [messages] property holding a sequence of
    [Message] values.  Every member of [PromptMetadata] is optional, so the
    empty object is a [PromptMetadata]; it is not a [RenderedPrompt], and a
    [RenderedPrompt] stops being one once [messages] is taken away. *)
Theorem RenderedPrompt_requires_messages (ModelConfig : ty) (v : value) :
  (t_object (RenderedPrompt ModelConfig) v = true ↔
   t_object (PromptMetadata ModelConfig) v = true ∧
   ∃ ms, get "messages" v = Some (VArr ms) ∧
         Forall (λ m, t_object Message m = true) ms) ∧
  forallb poptional (PromptMetadata ModelConfig) = true ∧
  t_object (PromptMetadata ModelConfig) (obj []) = true ∧
  t_object (RenderedPrompt ModelConfig) (obj []) = false ∧
  t_object (RenderedPrompt ModelConfig) (unset "messages" v) = false.
Proof.
  assert (∀ w, t_object (RenderedPrompt ModelConfig) w = true ↔
    t_object (PromptMetadata ModelConfig) w = true ∧
    ∃ ms, get "messages" w = Some (VArr ms) ∧
          Forall (λ m, t_object Message m = true) ms) as Hiff.
  { intros w. unfold RenderedPrompt. rewrite t_object_app, andb_true_iff.
    apply and_iff_compat_l. destruct w as [| | | | | |props| | |];
      try (split; [done | by intros (? & ? & _)]).
    rewrite t_object_cons, t_object_nil, andb_true_r. split.
    - intros (x & Hx & Harr & _)%has_prop_required; [|done].
      apply t_array_Forall in Harr as (ms & -> & Hms). eauto.
    - intros (ms & Hget & Hms). simpl in Hget. unfold has_prop; simpl.
      rewrite Hget, orb_false_r. apply t_array_Forall. eauto. }
  split; [apply Hiff|]. repeat split; try reflexivity.
  destruct (t_object (RenderedPrompt ModelConfig) (unset "messages" v)) eqn:E;
    [|done].
  apply Hiff in E as (_ & ms & Hget & _). by rewrite get_unset_eq in Hget.
Qed.

(** The rendering of [Hello {{name}}], with and without its messages. *)
Lemma RenderedPrompt_requires_messages_witness :
  t_object (RenderedPrompt t_record_any) hello_rendered = true ∧
  t_object (RenderedPrompt t_record_any) (unset "messages" hello_rendered) = false.
Proof.
  destruct (RenderedPrompt_requires_messages t_record_any hello_rendered)
    as (Hiff & _ & _ & _ & Hun).
  split; [|exact Hun]. apply Hiff. split; [vm_compute; reflexivity|].
  exists [hello_message]. split; [vm_compute; reflexivity|].
  constructor; [vm_compute; reflexivity | constructor].
Defined.

(** C3: a [CompiledPrompt] takes a required [data] of type [DataArgument]
    and an optional [options] of type [PromptMetadata].  A call passing the
    data alone is accepted, as is a call passing both; a call without data
    is not.  What the call returns is a promise, never a bare value, and a
    fulfilled one holds a [RenderedPrompt]. *)
Theorem CompiledPrompt_call (ModelConfig : ty) (f : function) (d : value) :
  implements (CompiledPrompt ModelConfig) f →
  t_object (DataArgument t_any t_any) d = true →
  (pname <$> params (CompiledPrompt ModelConfig) = ["data"; "options"] ∧
   poptional <$> params (CompiledPrompt ModelConfig) = [false; true]) ∧
  accepts (params (CompiledPrompt ModelConfig)) [d] = true ∧
  (∀ o, t_object (PromptMetadata ModelConfig) o = true →
        accepts (params (CompiledPrompt ModelConfig)) [d; o] = true) ∧
  accepts (params (CompiledPrompt ModelConfig)) [] = false ∧
  (f [d] = VPending ∨ (∃ e, f [d] = VRejected e) ∨
   ∃ r, f [d] = VFulfilled r ∧ t_object (RenderedPrompt ModelConfig) r = true).
Proof.
  intros Hf Hd.
  assert (accepts (params (CompiledPrompt ModelConfig)) [d] = true) as Hcall.
  { simpl. by rewrite Hd. }
  repeat split; try done.
  - intros o Ho. simpl. by rewrite Hd, Ho.
  - apply (t_promise_inv (t_object (RenderedPrompt ModelConfig))).
    by apply (Hf [d]).
Qed.

(** The prompt [hello_prompt] called with [ana_data] alone. *)
Lemma CompiledPrompt_call_witness :
  implements (CompiledPrompt t_record_any) hello_prompt ∧
  t_object (DataArgument t_any t_any) ana_data = true ∧
  ∃ r, hello_prompt [ana_data] = VFulfilled r ∧
       t_object (RenderedPrompt t_record_any) r = true.
Proof.
  assert (implements (CompiledPrompt t_record_any) hello_prompt) as Hf.
  { intros args _. vm_compute. reflexivity. }
  assert (t_object (DataArgument t_any t_any) ana_data = true) as Hd.
  { vm_compute. reflexivity. }
  split; [exact Hf|]. split; [exact Hd|].
  destruct (CompiledPrompt_call t_record_any hello_prompt ana_data Hf Hd)
    as (_ & _ & _ & _ & [H|[[e H]|H]]).
  - discriminate H.
  - discriminate H.
  - exact H.
Defined.

(** C4: the members of [DataArgument] are input, docs, messages and
    context, all of them optional.  The object with none of them is a
    [DataArgument], whatever the types of the variables and of the state,
    and a compiled prompt accepts it as its data.  Each member alone, the
    other three absent, makes a [DataArgument] too. *)
Theorem DataArgument_all_optional (Variables State ModelConfig : ty)
    (x : value) :
  pname <$> DataArgument Variables State =
    ["input"; "docs"; "messages"; "context"] ∧
  forallb poptional (DataArgument Variables State) = true ∧
  t_object (DataArgument Variables State) (obj []) = true ∧
  accepts (params (CompiledPrompt ModelConfig)) [obj []] = true ∧
  (Variables x = true →
   t_object (DataArgument Variables State) (obj [("input", x)]) = true) ∧
  t_object (DataArgument Variables State) (obj [("docs", VArr [])]) = true ∧
  t_object (DataArgument Variables State) (obj [("messages", VArr [])]) = true ∧
  t_object (DataArgument Variables State) (obj [("context", obj [])]) = true.
Proof.
  repeat split. intros Hx. unfold DataArgument. literal. by rewrite Hx.
Qed.

(** The data [ana_data], which has its input and nothing else. *)
Lemma DataArgument_all_optional_witness :
  t_object (DataArgument t_any t_any) ana_data = true.
Proof.
  destruct (DataArgument_all_optional t_any t_any t_record_any
              (obj [("name", VStr "Ana")])) as (_ & _ & _ & _ & Hin & _).
  exact (Hin eq_refl).
Defined.

Lemma search_registry_implements : implements ToolResolver search_registry.
Proof.
  intros [|[| | | |n| | | | |] [|]] H; try discriminate H.
  unfold search_registry. by destruct (String.eqb n "search").
Qed.





(** C6: a value is a [ToolDefinition] exactly when it is an object with a
    string [name] and an [inputSchema] that is a [Schema], whose
    [description], where there is one, is a string and whose
    [outputSchema], where there is one, is a [Schema].  A name and an input
    schema alone make a definition; without either there is none.  Nothing
    asks for distinct names: [toolDefs] may hold one definition twice. *)
Theorem ToolDefinition_members (ModelConfig : ty) (v d : value) :
  (t_object ToolDefinition v = true ↔
   ∃ props, v = VObj props ∧
     (∃ n, props !! "name" = Some (VStr n)) ∧
     (∃ s, props !! "inputSchema" = Some s ∧ Schema s = true) ∧
     (∀ x, props !! "description" = Some x →
           t_string x = true ∨ x = VUndefined) ∧
     (∀ x, props !! "outputSchema" = Some x →
           Schema x = true ∨ x = VUndefined)) ∧
  (∀ n s, Schema s = true →
     t_object ToolDefinition (obj [("name", VStr n); ("inputSchema", s)]) = true) ∧
  t_object ToolDefinition (unset "name" v) = false ∧
  t_object ToolDefinition (unset "inputSchema" v) = false ∧
  (t_object ToolDefinition d = true →
   t_object (PromptMetadata ModelConfig) (obj [("toolDefs", VArr [d; d])]) = true).
Proof.
  assert (∀ w, t_object ToolDefinition w = true ↔
   ∃ props, w = VObj props ∧
     (∃ n, props !! "name" = Some (VStr n)) ∧
     (∃ s, props !! "inputSchema" = Some s ∧ Schema s = true) ∧
     (∀ x, props !! "description" = Some x →
           t_string x = true ∨ x = VUndefined) ∧
     (∀ x, props !! "outputSchema" = Some x →
           Schema x = true ∨ x = VUndefined)) as Hiff.
  { intros w. destruct w as [| | | | | |props| | |];
      try (split; [done | by intros (? & [=] & _)]).
    unfold ToolDefinition.
    rewrite !t_object_cons, t_object_nil, !andb_true_iff,
      !has_prop_required_iff, !has_prop_optional.
    split.
    - intros ((x & Hx & (n & ->)%t_string_inv) & Hd & Hs & Ho & _).
      exists props. eauto 10.
    - intros (? & [= <-] & (n & Hn) & Hs & Hd & Ho).
      repeat split; try done. exists (VStr n). eauto. }
  split; [apply Hiff|]. split; [|split; [|split]].
  - intros n s Hs. literal. by rewrite Hs.
  - destruct (t_object ToolDefinition (unset "name" v)) eqn:E; [|done].
    apply Hiff in E as (props & Hv & (n & Hn) & _).
    assert (get "name" (unset "name" v) = Some (VStr n)) as Hget
      by (by rewrite Hv).
    by rewrite get_unset_eq in Hget.
  - destruct (t_object ToolDefinition (unset "inputSchema" v)) eqn:E; [|done].
    apply Hiff in E as (props & Hv & _ & (x & Hx & _) & _).
    assert (get "inputSchema" (unset "inputSchema" v) = Some x) as Hget
      by (by rewrite Hv).
    by rewrite get_unset_eq in Hget.
  - intros Hd. unfold PromptMetadata, HasMetadata. literal. by rewrite Hd.
Qed.

(** The tool [search_tool], listed twice among the [toolDefs] of a prompt. *)
Lemma ToolDefinition_members_witness :
  t_object ToolDefinition search_tool = true ∧
  t_object (PromptMetadata t_record_any)
    (obj [("toolDefs", VArr [search_tool; search_tool])]) = true ∧
  t_object ToolDefinition (unset "name" search_tool) = false.
Proof.
  assert (t_object ToolDefinition search_tool = true) as Hd
    by (vm_compute; reflexivity).
  destruct (ToolDefinition_members t_record_any search_tool search_tool)
    as (_ & _ & Hname & _ & Htwice).
  split; [exact Hd|]. split; [exact (Htwice Hd) | exact Hname].
Defined.

(** C7, as stated, fails for the variant [PendingPart]: no value of it
    is without a metadata property. *)
Lemma PendingPart_needs_metadata :
  ¬ Forall (λ V : ty, ∃ v, V v = true ∧ get "metadata" v = None) Part_variants.
Proof.
  rewrite Forall_forall. intros H. destruct (H PendingPart) as (v & Hv & Hm).
  { do 5 apply list_elem_of_further. apply list_elem_of_here. }
  apply PendingPart_payload in Hv as (_ & m & Hm' & _). congruence.
Qed.

(** C7, amended: in the five variants that carry a payload, metadata is
    optional and free-form, a part stays in its variant when its metadata is
    taken away or replaced by any record.  In [PendingPart] metadata is
    required and holds [pending: true]; without it nothing of a pending
    part is left that would be a [Part]. *)
Theorem metadata_optional_unless_pending (V : ty) (v m : value) :
  (V ∈ payload_variants → V v = true →
   V (unset "metadata" v) = true ∧
   (t_record_any m = true → V (assign "metadata" m v) = true)) ∧
  (PendingPart v = true →
   marked_pending v ∧ Part (unset "metadata" v) = false).
Proof.
  split.
  - intros HV Hv. unfold payload_variants in HV.
    repeat (apply elem_of_cons in HV as [->|HV]);
      [..|by apply elem_of_nil in HV];
      (split; [by apply t_inter_unset|]);
      intros Hm; apply t_inter_assign; try done;
      unfold takes; simpl; by rewrite Hm.
  - intros Hv. apply PendingPart_payload in Hv as [Hnone Hmark].
    split; [done|].
    destruct (Part (unset "metadata" v)) eqn:E; [|done].
    apply Part_payloads in E as [[k Hk]|[_ (x & Hx & _)]].
    + rewrite populated_payloads_unset_metadata in Hk. congruence.
    + by rewrite get_unset_eq in Hx.
Qed.

(** A text part takes or leaves metadata; the pending placeholder cannot
    leave it. *)
Lemma metadata_optional_unless_pending_witness :
  (TextPart (unset "metadata" hello_part) = true ∧
   TextPart (assign "metadata" trace_metadata hello_part) = true) ∧
  (marked_pending pending_part ∧ Part (unset "metadata" pending_part) = false).
Proof.
  split.
  - destruct (metadata_optional_unless_pending TextPart hello_part trace_metadata)
      as [Htext _].
    destruct Htext as [Hun Has];
      [apply list_elem_of_here | vm_compute; reflexivity |].
    split; [exact Hun | apply Has; reflexivity].
  - destruct (metadata_optional_unless_pending TextPart pending_part trace_metadata)
      as [_ Hpending].
    apply Hpending. vm_compute. reflexivity.
Defined.

(** C8: the [toolRequest] of a [ToolRequestPart] has a string [name]; it
    stays one without [input] and [ref], and stops being one without
    [name].  The same holds of the [toolResponse] of a [ToolResponsePart],
    with [output] for [input].  A request that only names its tool, and a
    response that only names its tool, are parts. *)
Theorem tool_parts_members (Input Output : ty) (v : value) :
  (ToolRequestPart Input v = true →
   ∃ r n, get "toolRequest" v = Some r ∧ get "name" r = Some (VStr n) ∧
     ToolRequestPart Input
       (assign "toolRequest" (unset "ref" (unset "input" r)) v) = true ∧
     ToolRequestPart Input (assign "toolRequest" (unset "name" r) v) = false) ∧
  (ToolResponsePart Output v = true →
   ∃ r n, get "toolResponse" v = Some r ∧ get "name" r = Some (VStr n) ∧
     ToolResponsePart Output
       (assign "toolResponse" (unset "ref" (unset "output" r)) v) = true ∧
     ToolResponsePart Output (assign "toolResponse" (unset "name" r) v) = false) ∧
  (∀ n, Part (obj [("toolRequest", obj [("name", VStr n)])]) = true) ∧
  (∀ n, Part (obj [("toolResponse", obj [("name", VStr n)])]) = true).
Proof.
  split; [|split; [|split; intros n; reflexivity]].
  - intros (r & n & Hr & Hn & Hobj & Hset & Hname)%named_payload.
    exists r, n. repeat split; try done.
    apply Hset. by do 2 (apply t_object_unset; [done|]).
  - intros (r & n & Hr & Hn & Hobj & Hset & Hname)%named_payload.
    exists r, n. repeat split; try done.
    apply Hset. by do 2 (apply t_object_unset; [done|]).
Qed.

(** A request to the tool [search] and the response to it. *)
Lemma tool_parts_members_witness :
  (∃ r n, get "toolRequest" search_request = Some r ∧
          get "name" r = Some (VStr n) ∧
          ToolRequestPart t_any
            (assign "toolRequest" (unset "ref" (unset "input" r)) search_request)
            = true ∧
          ToolRequestPart t_any
            (assign "toolRequest" (unset "name" r) search_request) = false) ∧
  (∃ r n, get "toolResponse" search_response = Some r ∧
          get "name" r = Some (VStr n) ∧
          ToolResponsePart t_any
            (assign "toolResponse" (unset "ref" (unset "output" r)) search_response)
            = true ∧
          ToolResponsePart t_any
            (assign "toolResponse" (unset "name" r) search_response) = false).
Proof.
  split.
  - destruct (tool_parts_members t_any t_any search_request) as (Hreq & _).
    apply Hreq. vm_compute. reflexivity.
  - destruct (tool_parts_members t_any t_any search_response) as (_ & Hres & _).
    apply Hres. vm_compute. reflexivity.
Defined.

(** C9: when a value populates [media], it is a part only as a
    [MediaPart], and then its media has a string [url]; leaving
    [contentType] out keeps it a part.  Where the media has no string
    [url], the value is not a [Part].  A media that only gives its url
    makes a part. *)
Theorem MediaPart_url_required (v m : value) :
  get "media" v = Some m → is_undefined m = false →
  (Part v = true →
   MediaPart v = true ∧ (∃ u, get "url" m = Some (VStr u)) ∧
   Part (assign "media" (unset "contentType" m) v) = true) ∧
  ((∀ u, get "url" m ≠ Some (VStr u)) → Part v = false) ∧
  (∀ u, Part (obj [("media", obj [("url", VStr u)])]) = true).
Proof.
  intros Hget Hdef.
  assert (Part v = true →
    MediaPart v = true ∧ (∃ u, get "url" m = Some (VStr u)) ∧
    Part (assign "media" (unset "contentType" m) v) = true) as Hpart.
  { intros HP. assert (MediaPart v = true) as HM.
    { apply Part_media; [|done]. unfold populated. by rewrite Hget, Hdef. }
    split; [done|]. pose proof HM as HM'.
    destruct (t_inter_object_inv _ _ v HM) as [props ->].
    unfold MediaPart in HM. open_variant HM.
    destruct HM as [_ [(x & Hx & Hobj)%has_prop_required_iff _]].
    simpl in Hget. assert (x = m) as -> by congruence.
    destruct (t_object_inv _ _ Hobj) as [mprops ->].
    pose proof Hobj as Hurl.
    rewrite t_object_cons, andb_true_iff, has_prop_required_iff in Hurl.
    destruct Hurl as [(y & Hy & (u & ->)%t_string_inv) _].
    split; [by exists u|]. apply MediaPart_Part.
    revert HM'. apply t_inter_assign; [done|].
    rewrite takes_single. by apply t_object_unset. }
  split; [exact Hpart|]. split; [|intros u; reflexivity].
  intros Hno. destruct (Part v) eqn:E; [|done].
  destruct (Hpart eq_refl) as (_ & (u & Hu) & _). by destruct (Hno u).
Qed.

(** A media that gives a content type and no url. *)
Lemma MediaPart_url_required_witness :
  get "media" png_without_url = Some png_media ∧
  is_undefined png_media = false ∧
  Part png_without_url = false.
Proof.
  assert (get "media" png_without_url = Some png_media) as Hget
    by (vm_compute; reflexivity).
  assert (is_undefined png_media = false) as Hdef by reflexivity.
  split; [exact Hget|]. split; [exact Hdef|].
  destruct (MediaPart_url_required png_without_url png_media Hget Hdef)
    as (_ & Hno & _).
  apply Hno. intros u. vm_compute. discriminate.
Defined.

(** C10: [PromptMetadata], [RenderedPrompt], [Message] and [Document] all
    have the member of [HasMetadata], and have it optional.  A value of any
    of them stays one when its metadata is replaced by any record, and when
    its metadata is taken away, provided what is left passes the check of
    weak types; of the four only [PromptMetadata] is weak.  The metadata a
    value has, if any, is a record. *)
Theorem metadata_inherited (ModelConfig : ty) (v m : value) :
  weak <$> metadata_holders ModelConfig = [true; false; false; false] ∧
  Forall (λ I : members,
    HasMetadata ⊆ I ∧ optional_in "metadata" I = true ∧
    (t_object I v = true →
     (weak_check I (unset "metadata" v) = true →
      t_object I (unset "metadata" v) = true) ∧
     (t_record_any m = true → t_object I (assign "metadata" m v) = true) ∧
     (∀ x, get "metadata" v = Some x →
           t_record_any x = true ∨ x = VUndefined)))
    (metadata_holders ModelConfig).
Proof.
  split; [reflexivity|].
  assert (∀ rest : members,
    optional_in "metadata" rest = true →
    (∀ x, takes "metadata" x rest = true) →
    HasMetadata ⊆ HasMetadata ++ rest ∧
    optional_in "metadata" (HasMetadata ++ rest) = true ∧
    (t_object (HasMetadata ++ rest) v = true →
     (weak_check (HasMetadata ++ rest) (unset "metadata" v) = true →
      t_object (HasMetadata ++ rest) (unset "metadata" v) = true) ∧
     (t_record_any m = true →
      t_object (HasMetadata ++ rest) (assign "metadata" m v) = true) ∧
     (∀ x, get "metadata" v = Some x →
           t_record_any x = true ∨ x = VUndefined))) as Hext.
  { intros rest Hopt Hadm.
    split; [intros d Hd; apply elem_of_app; by left|].
    split; [done|]. intros Hv. repeat split.
    - intros _. revert Hv. by apply t_object_unset.
    - intros Hm. revert Hv. apply t_object_assign.
      unfold takes in *. simpl. rewrite Hm. apply Hadm.
    - destruct (t_object_inv _ _ Hv) as [props ->].
      rewrite t_object_app in Hv. apply andb_true_iff in Hv as [Hv _].
      unfold HasMetadata in Hv.
      rewrite t_object_cons, andb_true_iff, has_prop_optional in Hv.
      apply Hv. }
  unfold metadata_holders, RenderedPrompt, PromptMetadata, Message, Document.
  rewrite <- app_assoc.
  do 4 (apply Forall_cons_2; [by apply Hext|]). constructor.
Qed.

(** The message [hello_message], which has no metadata, given some; and
    the metadata [greeting_metadata], given some and left without it
    again. *)
Lemma metadata_inherited_witness :
  t_object Message hello_message = true ∧
  t_object Message (assign "metadata" trace_metadata hello_message) = true ∧
  weak_check (PromptMetadata t_record_any)
    (unset "metadata" (assign "metadata" trace_metadata greeting_metadata)) = true ∧
  t_object (PromptMetadata t_record_any)
    (unset "metadata" (assign "metadata" trace_metadata greeting_metadata)) = true.
Proof.
  assert (t_object Message hello_message = true) as Hv
    by (vm_compute; reflexivity).
  assert (t_object (PromptMetadata t_record_any)
            (assign "metadata" trace_metadata greeting_metadata) = true) as Hp
    by (vm_compute; reflexivity).
  assert (weak_check (PromptMetadata t_record_any)
            (unset "metadata" (assign "metadata" trace_metadata greeting_metadata))
          = true) as Hw by (vm_compute; reflexivity).
  split; [exact Hv|].
  destruct (metadata_inherited t_record_any hello_message trace_metadata)
    as [_ H].
  rewrite Forall_forall in H. destruct (H Message) as (_ & _ & HM).
  { do 2 apply list_elem_of_further. apply list_elem_of_here. }
  destruct (HM Hv) as (_ & Has & _). split; [apply Has; reflexivity|].
  split; [exact Hw|].
  destruct (metadata_inherited t_record_any
              (assign "metadata" trace_metadata greeting_metadata) trace_metadata)
    as [_ H'].
  rewrite Forall_forall in H'.
  destruct (H' (PromptMetadata t_record_any)) as (_ & _ & HP).
  { apply list_elem_of_here. }
  destruct (HP Hp) as (Hun & _). exact (Hun Hw).
Defined.

(** ** Further properties of the declarations *)

(** *** Writing a property, exactly *)

Lemma has_prop_insert_eq (k : string) (x : value) (props : gmap string value)
    (d : prop_decl) :
  has_prop props d = true →
  has_prop (<[k:=x]> props) d =
    implb (bool_decide (pname d = k))
      (ptype d x || (poptional d && is_undefined x)).
Proof.
  unfold has_prop. case_bool_decide as Hk; simpl.
  - subst k. by rewrite lookup_insert_eq.
  - by rewrite lookup_insert_ne.
Qed.

(** On a value of an object type, writing [k] gives a value of the type
    exactly when the declarations of [k] allow what is written. *)
Lemma t_object_assign_eq (k : string) (x : value) (ms : members) (v : value) :
  t_object ms v = true →
  t_object ms (assign k x v) = writable k x ms.
Proof.
  destruct v as [| | | | | |props| | |]; try done.
  induction ms as [|d ms IH]; [done|]. unfold writable; simpl.
  rewrite andb_true_iff. intros [H1 H2].
  rewrite has_prop_insert_eq by done. f_equal. by apply IH.
Qed.

Lemma t_object_Omit (ms : members) (k : string) (v : value) :
  t_object ms v = true → t_object (Omit ms k) v = true.
Proof.
  destruct v as [| | | | | |props| | |]; try done.
  rewrite !t_object_Forall, !Forall_forall. intros H d Hd.
  apply H. unfold Omit in Hd. by apply list_elem_of_filter in Hd as [_ Hd].
Qed.

Lemma array_at_get (k : string) (v : value) (items : list value) :
  get k v = Some (VArr items) → array_at k v = items.
Proof. unfold array_at. by intros ->. Qed.

Lemma array_at_assign (k : string) (items : list value)
    (props : gmap string value) :
  array_at k (assign k (VArr items) (VObj props)) = items.
Proof. unfold array_at; simpl. by rewrite lookup_insert_eq. Qed.

(** The array under an optional array property holds values of the element
    type. *)
Lemma array_at_Forall (k : string) (o : bool) (T : ty) (ms : members) (v : value) :
  Prop_decl k o (t_array T) ∈ ms →
  t_object ms v = true →
  Forall (λ x, T x = true) (array_at k v).
Proof.
  intros Hin Hv. destruct (t_object_inv _ _ Hv) as [props ->].
  apply (proj1 (t_object_Forall _ _)) in Hv. rewrite Forall_forall in Hv.
  specialize (Hv _ Hin). unfold has_prop in Hv; simpl in Hv.
  unfold array_at; simpl. destruct (props !! k) as [x|]; [|constructor].
  destruct x as [| | | | |items| | | |]; try constructor.
  simpl in Hv. rewrite andb_false_r, orb_false_r in Hv.
  change (t_array T (VArr items) = true) in Hv.
  by apply t_array_Forall in Hv as (? & [= <-] & ?).
Qed.

Lemma t_str_lit_inv (s : string) (x : value) :
  t_str_lit s x = true ↔ x = VStr s.
Proof.
  split; [|intros ->; simpl; by apply bool_decide_eq_true].
  destruct x; simpl; try discriminate. by intros ->%bool_decide_eq_true.
Qed.

(** The type of [role] holds the strings of [roles]. *)
Lemma role_type (x : value) :
  t_union (t_str_lit "user")
    (t_union (t_str_lit "model")
       (t_union (t_str_lit "tool") (t_str_lit "system"))) x = true ↔
  ∃ r, x = VStr r ∧ r ∈ roles.
Proof.
  unfold t_union, roles. rewrite !orb_true_iff, !t_str_lit_inv. split.
  - intros [ -> | [ -> | [ -> | -> ] ] ]; eexists; (split; [done|]);
      repeat first [apply list_elem_of_here | apply list_elem_of_further].
  - intros (r & -> & Hr).
    repeat (apply elem_of_cons in Hr as [ -> | Hr]); eauto.
    by apply elem_of_nil in Hr.
Qed.

(** X1: a value is a [Message] exactly when it is an object whose [role]
    is one of the strings user, model, tool and system, whose [content] is
    an array of parts, and whose metadata, where there is one, is a
    record. *)
Theorem Message_members (v : value) :
  t_object Message v = true ↔
  ∃ props r parts, v = VObj props ∧
    props !! "role" = Some (VStr r) ∧ r ∈ roles ∧
    props !! "content" = Some (VArr parts) ∧
    Forall (λ p, Part p = true) parts ∧
    (∀ x, props !! "metadata" = Some x →
          t_record_any x = true ∨ x = VUndefined).
Proof.
  destruct v as [| | | | | |props| | |];
    try (split; [done | by intros (? & ? & ? & [=] & _)]).
  unfold Message, HasMetadata. simpl app.
  rewrite !t_object_cons, t_object_nil, !andb_true_iff,
    !has_prop_required_iff, has_prop_optional.
  split.
  - intros (Hm & (x & Hx & (r & -> & Hr)%role_type) &
            (c & Hc & (parts & -> & Hparts)%t_array_Forall) & _).
    exists props, r, parts. eauto 10.
  - intros (? & r & parts & [= <-] & Hr & Hin & Hc & Hparts & Hm).
    repeat split; try done.
    + exists (VStr r). split; [done|]. apply role_type. eauto.
    + exists (VArr parts). split; [done|]. apply t_array_Forall. eauto.
Qed.

(** A message from the model that calls the tool [search]. *)
Lemma Message_members_witness :
  t_object Message
    (obj [("role", VStr "model"); ("content", VArr [search_request])]) = true.
Proof.
  apply Message_members.
  exists (list_to_map [("role", VStr "model"); ("content", VArr [search_request])]),
    "model", [search_request].
  split; [reflexivity|]. split; [vm_compute; reflexivity|].
  split; [apply list_elem_of_further, list_elem_of_here|].
  split; [vm_compute; reflexivity|].
  split; [constructor; [vm_compute; reflexivity | constructor]|].
  intros x Hx. vm_compute in Hx. discriminate Hx.
Defined.

(** X2: every [Message] is a [Document].  Without its [role] it is still
    a [Document], and no longer a [Message]. *)
Theorem Message_is_Document (m : value) :
  t_object Message m = true →
  t_object Document m = true ∧
  t_object Document (unset "role" m) = true ∧
  t_object Message (unset "role" m) = false.
Proof.
  intros Hm.
  assert (t_object Document m = true) as Hd.
  { destruct (t_object_inv _ _ Hm) as [props ->].
    unfold Message, Document, HasMetadata in *. simpl app in *.
    rewrite !t_object_cons, !andb_true_iff in *. tauto. }
  split; [done|]. split.
  - by apply t_object_unset.
  - apply (t_object_unset_required "role"
             (t_union (t_str_lit "user")
                (t_union (t_str_lit "model")
                   (t_union (t_str_lit "tool") (t_str_lit "system"))))).
    apply list_elem_of_further, list_elem_of_here.
Qed.

(** The message [hello_message] read as a document. *)
Lemma Message_is_Document_witness :
  t_object Message hello_message = true ∧
  t_object Document hello_message = true ∧
  t_object Message (unset "role" hello_message) = false.
Proof.
  assert (t_object Message hello_message = true) as Hm
    by (vm_compute; reflexivity).
  destruct (Message_is_Document hello_message Hm) as (Hd & _ & Hno).
  split; [exact Hm|]. split; [exact Hd | exact Hno].
Defined.

(** X3: a [Document] given a role is a [Message] exactly when the role is
    one of user, model, tool and system. *)
Theorem Document_with_role (d : value) (r : string) :
  t_object Document d = true →
  (t_object Message (assign "role" (VStr r) d) = true ↔ r ∈ roles).
Proof.
  intros Hd. destruct (t_object_inv _ _ Hd) as [props ->].
  unfold Message, Document, HasMetadata in *. simpl app in *. cbn [assign].
  rewrite !t_object_cons, !andb_true_iff in Hd. destruct Hd as (Hm & Hc & _).
  rewrite !t_object_cons, t_object_nil.
  rewrite (has_prop_insert_eq "role" (VStr r) props _ Hm).
  rewrite (has_prop_insert_eq "role" (VStr r) props _ Hc).
  cbn [pname bool_decide]. rewrite !bool_decide_eq_false_2 by done.
  cbn [implb andb]. rewrite andb_true_r, has_prop_required_iff, lookup_insert_eq.
  split.
  - intros (x & [= <-] & (r' & [= <-] & Hr)%role_type). done.
  - intros Hr. eexists. split; [done|]. apply role_type. eauto.
Qed.

(** The document [greeting_doc] spoken by the model, and by nobody the type
    knows. *)
Lemma Document_with_role_witness :
  t_object Document greeting_doc = true ∧
  t_object Message (assign "role" (VStr "model") greeting_doc) = true ∧
  t_object Message (assign "role" (VStr "assistant") greeting_doc) ≠ true.
Proof.
  assert (t_object Document greeting_doc = true) as Hd
    by (vm_compute; reflexivity).
  split; [exact Hd|]. split.
  - apply (Document_with_role greeting_doc "model" Hd).
    apply list_elem_of_further, list_elem_of_here.
  - intros H. apply (Document_with_role greeting_doc "assistant" Hd) in H.
    unfold roles in H.
    repeat (apply elem_of_cons in H as [H|H]; [discriminate H|]).
    by apply elem_of_nil in H.
Defined.

(** *** The parts inside messages and documents *)

Lemma Message_role (m : value) :
  t_object Message m = true →
  ∃ role, get "role" m = Some (VStr role) ∧ role ∈ roles.
Proof.
  intros Hm. destruct (t_object_inv _ _ Hm) as [props ->].
  unfold Message, HasMetadata in Hm. simpl app in Hm.
  rewrite !t_object_cons, !andb_true_iff, has_prop_required_iff in Hm.
  destruct Hm as (_ & (x & Hx & (r & -> & Hr)%role_type) & _). eauto.
Qed.

Lemma Message_content (m : value) :
  t_object Message m = true →
  Forall (λ p, Part p = true) (array_at "content" m).
Proof.
  apply (array_at_Forall "content" false Part).
  do 2 apply list_elem_of_further. apply list_elem_of_here.
Qed.

Lemma Document_content (d : value) :
  t_object Document d = true →
  Forall (λ p, Part p = true) (array_at "content" d).
Proof.
  apply (array_at_Forall "content" false Part).
  apply list_elem_of_further, list_elem_of_here.
Qed.

Lemma Part_checked (p : value) :
  Part p = true → Part p = true ∧ one_payload_or_pending p.
Proof. intros Hp. split; [done|]. by apply Part_payloads. Qed.

Lemma Messages_parts (ms : list value) :
  Forall (λ m, t_object Message m = true) ms →
  Forall (λ p, Part p = true ∧ one_payload_or_pending p)
    (ms ≫= array_at "content").
Proof.
  intros Hms. apply Forall_bind. eapply Forall_impl; [exact Hms|].
  intros m Hm. simpl. eapply Forall_impl; [by apply Message_content|].
  apply Part_checked.
Qed.

Lemma Documents_parts (ds : list value) :
  Forall (λ d, t_object Document d = true) ds →
  Forall (λ p, Part p = true ∧ one_payload_or_pending p)
    (ds ≫= array_at "content").
Proof.
  intros Hds. apply Forall_bind. eapply Forall_impl; [exact Hds|].
  intros d Hd. simpl. eapply Forall_impl; [by apply Document_content|].
  apply Part_checked.
Qed.

Lemma RenderedPrompt_messages (ModelConfig : ty) (r : value) :
  t_object (RenderedPrompt ModelConfig) r = true →
  ∃ ms, get "messages" r = Some (VArr ms) ∧
        Forall (λ m, t_object Message m = true) ms.
Proof.
  intros Hr. destruct (t_object_inv _ _ Hr) as [props ->].
  unfold RenderedPrompt in Hr. rewrite t_object_app, andb_true_iff in Hr.
  destruct Hr as [_ Hr].
  rewrite t_object_cons, andb_true_iff, has_prop_required_iff in Hr.
  destruct Hr as [(x & Hx & (ms & -> & Hms)%t_array_Forall) _]. eauto.
Qed.


(** X4: in a [RenderedPrompt], every message has one of the four roles,
    and every part of every message is a [Part] that populates exactly one
    payload, or none under the pending mark. *)
Theorem RenderedPrompt_parts (ModelConfig : ty) (r : value) :
  t_object (RenderedPrompt ModelConfig) r = true →
  Forall (λ m, ∃ role, get "role" m = Some (VStr role) ∧ role ∈ roles)
    (array_at "messages" r) ∧
  Forall (λ p, Part p = true ∧ one_payload_or_pending p) (message_parts r).
Proof.
  intros (ms & Hget & Hms)%RenderedPrompt_messages.
  unfold message_parts. rewrite (array_at_get _ _ _ Hget). split.
  - eapply Forall_impl; [exact Hms|]. apply Message_role.
  - by apply Messages_parts.
Qed.

(** The parts of [hello_rendered]. *)
Lemma RenderedPrompt_parts_witness :
  t_object (RenderedPrompt t_record_any) hello_rendered = true ∧
  message_parts hello_rendered = [hello_part] ∧
  Forall (λ p, Part p = true ∧ one_payload_or_pending p)
    (message_parts hello_rendered).
Proof.
  assert (t_object (RenderedPrompt t_record_any) hello_rendered = true) as Hr
    by (vm_compute; reflexivity).
  split; [exact Hr|]. split; [vm_compute; reflexivity|].
  destruct (RenderedPrompt_parts t_record_any hello_rendered Hr) as [_ H].
  exact H.
Defined.

(** X5: in a [DataArgument], every part of every document and of every
    message of the history is a [Part] that populates exactly one payload,
    or none under the pending mark.  Without [docs] and [messages] there
    are no parts. *)
Theorem DataArgument_parts (Variables State : ty) (d : value) :
  t_object (DataArgument Variables State) d = true →
  Forall (λ p, Part p = true ∧ one_payload_or_pending p)
    (document_parts d ++ message_parts d) ∧
  (get "docs" d = None → get "messages" d = None →
   document_parts d ++ message_parts d = []).
Proof.
  intros Hd. split.
  - apply Forall_app. split.
    + apply Documents_parts.
      apply (array_at_Forall "docs" true (t_object Document)
               (DataArgument Variables State)); [|done].
      apply list_elem_of_further, list_elem_of_here.
    + apply Messages_parts.
      apply (array_at_Forall "messages" true (t_object Message)
               (DataArgument Variables State)); [|done].
      do 2 apply list_elem_of_further. apply list_elem_of_here.
  - intros Hdocs Hmsgs. unfold document_parts, message_parts, array_at.
    by rewrite Hdocs, Hmsgs.
Qed.

(** The parts of [history_data], one from its document and one from its
    history. *)
Lemma DataArgument_parts_witness :
  t_object (DataArgument t_any t_any) history_data = true ∧
  document_parts history_data ++ message_parts history_data =
    [hello_part; hello_part] ∧
  Forall (λ p, Part p = true ∧ one_payload_or_pending p)
    (document_parts history_data ++ message_parts history_data).
Proof.
  assert (t_object (DataArgument t_any t_any) history_data = true) as Hd
    by (vm_compute; reflexivity).
  split; [exact Hd|]. split; [vm_compute; reflexivity|].
  destruct (DataArgument_parts t_any t_any history_data Hd) as [H _].
  exact H.
Defined.

(** *** From metadata and messages to a rendered prompt, and back in *)

(** X6: a [PromptMetadata] given any sequence of messages, the empty one
    included, is a [RenderedPrompt] that holds these messages; taking them
    away again gives back the metadata it was made from. *)
Theorem RenderedPrompt_of_metadata (ModelConfig : ty) (p : value)
    (ms : list value) :
  t_object (PromptMetadata ModelConfig) p = true →
  Forall (λ m, t_object Message m = true) ms →
  t_object (RenderedPrompt ModelConfig) (assign "messages" (VArr ms) p) = true ∧
  array_at "messages" (assign "messages" (VArr ms) p) = ms ∧
  (get "messages" p = None →
   unset "messages" (assign "messages" (VArr ms) p) = p).
Proof.
  intros Hp Hms. destruct (t_object_inv _ _ Hp) as [props ->].
  split; [|split].
  - unfold RenderedPrompt. rewrite t_object_app, andb_true_iff. split.
    + revert Hp. by apply t_object_assign.
    + cbn [assign]. rewrite t_object_cons, t_object_nil, andb_true_r.
      apply has_prop_required_iff. exists (VArr ms).
      split; [apply lookup_insert_eq|]. apply t_array_Forall. eauto.
  - apply array_at_assign.
  - simpl. intros Hnone. f_equal. by apply delete_insert_id.
Qed.

(** The metadata [greeting_metadata] rendered with one message, and with
    none. *)
Lemma RenderedPrompt_of_metadata_witness :
  t_object (PromptMetadata t_record_any) greeting_metadata = true ∧
  t_object (RenderedPrompt t_record_any)
    (assign "messages" (VArr [hello_message]) greeting_metadata) = true ∧
  t_object (RenderedPrompt t_record_any)
    (assign "messages" (VArr []) greeting_metadata) = true ∧
  unset "messages" (assign "messages" (VArr []) greeting_metadata) =
    greeting_metadata.
Proof.
  assert (t_object (PromptMetadata t_record_any) greeting_metadata = true) as Hp
    by (vm_compute; reflexivity).
  assert (Forall (λ m, t_object Message m = true) [hello_message]) as Hms
    by (constructor; [vm_compute; reflexivity | constructor]).
  split; [exact Hp|].
  destruct (RenderedPrompt_of_metadata t_record_any greeting_metadata
              [hello_message] Hp Hms) as (H1 & _ & _).
  destruct (RenderedPrompt_of_metadata t_record_any greeting_metadata
              [] Hp (List.Forall_nil _)) as (H0 & _ & Hback).
  split; [exact H1|]. split; [exact H0|].
  apply Hback. vm_compute. reflexivity.
Defined.



(** X8: the messages of a [RenderedPrompt], put after the history of a
    [DataArgument], make a [DataArgument] again, which a compiled prompt
    accepts; its parts are those of the history followed by those
    rendered. *)
Theorem rendered_messages_extend_history (ModelConfig : ty) (d r : value) :
  t_object (DataArgument t_any t_any) d = true →
  t_object (RenderedPrompt ModelConfig) r = true →
  t_object (DataArgument t_any t_any)
    (assign "messages" (VArr (array_at "messages" d ++ array_at "messages" r)) d)
    = true ∧
  accepts (params (CompiledPrompt ModelConfig))
    [assign "messages" (VArr (array_at "messages" d ++ array_at "messages" r)) d]
    = true ∧
  message_parts
    (assign "messages" (VArr (array_at "messages" d ++ array_at "messages" r)) d)
    = message_parts d ++ message_parts r.
Proof.
  intros Hd Hr.
  assert (t_object (DataArgument t_any t_any)
    (assign "messages" (VArr (array_at "messages" d ++ array_at "messages" r)) d)
    = true) as Hnew.
  { rewrite t_object_assign_eq by done. unfold writable, DataArgument.
    cbn [forallb pname ptype poptional].
    rewrite !bool_decide_eq_false_2 by done.
    rewrite bool_decide_eq_true_2 by done. cbn [implb andb].
    rewrite andb_true_r, orb_true_iff. left. apply t_array_Forall.
    eexists. split; [done|]. apply Forall_app. split.
    - apply (array_at_Forall "messages" true (t_object Message)
               (DataArgument t_any t_any)); [|done].
      do 2 apply list_elem_of_further. apply list_elem_of_here.
    - destruct (RenderedPrompt_messages _ _ Hr) as (ms & Hget & Hms).
      by rewrite (array_at_get _ _ _ Hget). }
  split; [done|]. split.
  - cbn [accepts params CompiledPrompt ptype poptional]. by rewrite Hnew.
  - destruct (t_object_inv _ _ Hd) as [props ->].
    unfold message_parts. rewrite array_at_assign. apply bind_app.
Qed.

(** The history of [history_data] followed by the messages of
    [hello_rendered]. *)
Lemma rendered_messages_extend_history_witness :
  t_object (DataArgument t_any t_any) history_data = true ∧
  t_object (RenderedPrompt t_record_any) hello_rendered = true ∧
  array_at "messages"
    (assign "messages"
       (VArr (array_at "messages" history_data ++ array_at "messages" hello_rendered))
       history_data) = [hello_message; hello_message] ∧
  t_object (DataArgument t_any t_any)
    (assign "messages"
       (VArr (array_at "messages" history_data ++ array_at "messages" hello_rendered))
       history_data) = true.
Proof.
  assert (t_object (DataArgument t_any t_any) history_data = true) as Hd
    by (vm_compute; reflexivity).
  assert (t_object (RenderedPrompt t_record_any) hello_rendered = true) as Hr
    by (vm_compute; reflexivity).
  split; [exact Hd|]. split; [exact Hr|]. split; [vm_compute; reflexivity|].
  destruct (rendered_messages_extend_history t_record_any history_data
              hello_rendered Hd Hr) as [H _].
  exact H.
Defined.

(** *** Calls *)

(** X9: the calls a [CompiledPrompt] accepts are those with a
    [DataArgument] alone, and those with a [DataArgument] followed by a
    [PromptMetadata] or by [undefined].  No call without arguments and no
    call with three or more is accepted. *)
Theorem CompiledPrompt_accepted_calls (ModelConfig : ty) (args : list value) :
  accepts (params (CompiledPrompt ModelConfig)) args = true ↔
  ∃ d, t_object (DataArgument t_any t_any) d = true ∧
    (args = [d] ∨
     ∃ o, args = [d; o] ∧
          (t_object (PromptMetadata ModelConfig) o = true ∨ o = VUndefined)).
Proof.
  destruct args as [|d [|o [|x rest]]]; cbn [accepts params CompiledPrompt
    ptype poptional andb orb].
  - split; [done|]. by intros (d & _ & [[=]|(o & [=] & _)]).
  - rewrite andb_true_r, orb_false_r. split; [eauto|].
    by intros (d' & Hd & [[= <-]|(o & [=] & _)]).
  - rewrite andb_true_r, orb_false_r, andb_true_iff, orb_true_iff. split.
    + intros [Hd [Ho|Ho]]; exists d; (split; [done|]); right; exists o;
        (split; [done|]); [by left | right; by destruct o].
    + intros (d' & Hd & [[=]|(o' & [= <- <-] & [Ho| ->])]); auto.
  - rewrite !andb_false_r. split; [done|].
    by intros (d' & _ & [[=]|(o' & [=] & _)]).
Qed.

(** A call that passes [undefined] for the options. *)
Lemma CompiledPrompt_accepted_calls_witness :
  accepts (params (CompiledPrompt t_record_any)) [ana_data; VUndefined] = true.
Proof.
  apply CompiledPrompt_accepted_calls. exists ana_data.
  split; [vm_compute; reflexivity|]. right. exists VUndefined.
  split; [reflexivity|]. right. reflexivity.
Defined.

(** X10: the [format] of [output] may be any string: the literals json
    and text of its type add nothing to [string].  Writing an [output] with
    a format to a [PromptMetadata] gives a [PromptMetadata] exactly when the
    format is a string or [undefined]. *)
Theorem output_format_any_string (ModelConfig : ty) (p fmt : value) :
  t_object (PromptMetadata ModelConfig) p = true →
  t_object (PromptMetadata ModelConfig)
    (assign "output" (obj [("format", fmt)]) p) =
  t_string fmt || is_undefined fmt.
Proof.
  intros Hp. rewrite t_object_assign_eq by done.
  destruct fmt; vm_compute; reflexivity.
Qed.

(** The formats yaml and 7. *)
Lemma output_format_any_string_witness :
  t_object (PromptMetadata t_record_any)
    (assign "output" (obj [("format", VStr "yaml")]) greeting_metadata) = true ∧
  t_object (PromptMetadata t_record_any)
    (assign "output" (obj [("format", VNum 7)]) greeting_metadata) = false.
Proof.
  assert (t_object (PromptMetadata t_record_any) greeting_metadata = true) as Hp
    by (vm_compute; reflexivity).
  split.
  - exact (output_format_any_string t_record_any greeting_metadata
             (VStr "yaml") Hp).
  - exact (output_format_any_string t_record_any greeting_metadata
             (VNum 7) Hp).
Defined.

(** X11: in a [PromptMetadata], the names under [tools] are strings and
    the values under [toolDefs] are tool definitions, so both together make
    an array of [ToolArgument].  A [ToolArgument] is a string or a
    [ToolDefinition], never both. *)
Theorem tools_are_ToolArguments (ModelConfig : ty) (p : value) :
  t_object (PromptMetadata ModelConfig) p = true →
  Forall (λ a, t_string a = true) (array_at "tools" p) ∧
  Forall (λ a, t_object ToolDefinition a = true) (array_at "toolDefs" p) ∧
  t_array ToolArgument (VArr (array_at "tools" p ++ array_at "toolDefs" p)) = true ∧
  (∀ a, ToolArgument a = true → t_string a = negb (t_object ToolDefinition a)).
Proof.
  intros Hp.
  assert (Forall (λ a, t_string a = true) (array_at "tools" p)) as Hn.
  { apply (array_at_Forall "tools" true t_string (PromptMetadata ModelConfig));
      [|done].
    do 4 apply list_elem_of_further. apply list_elem_of_here. }
  assert (Forall (λ a, t_object ToolDefinition a = true) (array_at "toolDefs" p))
    as Hd.
  { apply (array_at_Forall "toolDefs" true (t_object ToolDefinition)
             (PromptMetadata ModelConfig)); [|done].
    do 5 apply list_elem_of_further. apply list_elem_of_here. }
  split; [done|]. split; [done|]. split.
  - apply t_array_Forall. eexists. split; [done|]. apply Forall_app. split.
    + eapply Forall_impl; [exact Hn|]. intros a Ha. unfold ToolArgument, t_union.
      by rewrite Ha.
    + eapply Forall_impl; [exact Hd|]. intros a Ha. unfold ToolArgument, t_union.
      rewrite Ha. apply orb_true_r.
  - intros a. unfold ToolArgument, t_union. destruct a; try done.
    simpl. intros ->. done.
Qed.

(** The tools of [greeting_metadata], one by name and one by definition. *)
Lemma tools_are_ToolArguments_witness :
  t_object (PromptMetadata t_record_any) greeting_metadata = true ∧
  array_at "tools" greeting_metadata ++ array_at "toolDefs" greeting_metadata =
    [VStr "search"; search_tool] ∧
  t_array ToolArgument
    (VArr (array_at "tools" greeting_metadata ++
           array_at "toolDefs" greeting_metadata)) = true.
Proof.
  assert (t_object (PromptMetadata t_record_any) greeting_metadata = true) as Hp
    by (vm_compute; reflexivity).
  split; [exact Hp|]. split; [vm_compute; reflexivity|].
  destruct (tools_are_ToolArguments t_record_any greeting_metadata Hp)
    as (_ & _ & H & _).
  exact H.
Defined.

(** X12: both resolvers are called with exactly one string.  The result
    type of [SchemaResolver] takes every value, [JSONSchema] being [any];
    that of [ToolResolver] takes [null], a [ToolDefinition], and a promise
    that is pending, rejected, or fulfilled with [null] or with a
    [ToolDefinition], and nothing else. *)
Theorem resolver_calls (args : list value) (r : value) :
  (accepts (params SchemaResolver) args = true ↔ ∃ n, args = [VStr n]) ∧
  (accepts (params ToolResolver) args = true ↔ ∃ n, args = [VStr n]) ∧
  returns SchemaResolver r = true ∧
  (returns ToolResolver r = true ↔
   r = VNull ∨ t_object ToolDefinition r = true ∨
   r = VPending ∨ (∃ e, r = VRejected e) ∨
   ∃ x, r = VFulfilled x ∧ (x = VNull ∨ t_object ToolDefinition x = true)).
Proof.
  assert (∀ k, accepts [k :! t_string] args = true ↔ ∃ n, args = [VStr n])
    as Hone.
  { intros k. destruct args as [|a [|b rest]]; simpl.
    - split; [done | by intros [? [=]]].
    - rewrite andb_true_r, orb_false_r, t_string_inv. split.
      + intros [n ->]. eauto.
      + intros [n [= ->]]. eauto.
    - rewrite andb_false_r. split; [done | by intros [? [=]]]. }
  split; [apply Hone|]. split; [apply Hone|]. split; [done|].
  cbn [returns ToolResolver]. unfold t_union. rewrite !orb_true_iff. split.
  - intros [Hd|[Hn|Hp]].
    + right. by left.
    + left. by destruct r.
    + apply t_promise_inv in Hp as [->|[[e ->]|(x & -> & Hx)]].
      * do 2 right. by left.
      * do 3 right. left. by exists e.
      * do 4 right. exists x. split; [done|].
        apply orb_true_iff in Hx as [Hx|Hx]; [by right | left; by destruct x].
  - intros [->|[Hd|[->|[[e ->]|(x & -> & [->|Hx])]]]].
    + right. by left.
    + by left.
    + right. by right.
    + right. by right.
    + right. by right.
    + right. right. simpl. by rewrite Hx.
Qed.

(** What [search_registry] answers, and a string, which no [ToolResolver]
    may answer. *)
Lemma resolver_calls_witness :
  returns ToolResolver (search_registry [VStr "search"]) = true ∧
  returns ToolResolver (search_registry [VStr "lookup"]) = true ∧
  returns ToolResolver (VStr "search") ≠ true.
Proof.
  split; [|split].
  - destruct (resolver_calls [] (search_registry [VStr "search"]))
      as (_ & _ & _ & H).
    apply H. right. left. vm_compute. reflexivity.
  - destruct (resolver_calls [] (search_registry [VStr "lookup"]))
      as (_ & _ & _ & H).
    apply H. left. reflexivity.
  - destruct (resolver_calls [] (VStr "search")) as (_ & _ & _ & H).
    intros E. apply H in E.
    destruct E as [E|[E|[E|[[e E]|(x & E & _)]]]]; discriminate E.
Defined.

(** *** Payloads *)

(** A part that populates a payload populates no other. *)
Lemma Part_populated (k : string) (v : value) :
  k ∈ payload_fields → populated k v = true → Part v = true →
  populated_payloads v = [k].
Proof.
  intros Hk Hp HP. pose proof (populated_payload_elem k v Hk Hp) as Hin.
  apply Part_payloads in HP as [[j Hj]|[Hnone _]].
  - rewrite Hj in Hin |- *. by apply list_elem_of_singleton in Hin as ->.
  - rewrite Hnone in Hin. by apply elem_of_nil in Hin.
Qed.

(** The variant of a part, read off the payload it populates. *)
Lemma Part_variant_of_payload (v : value) :
  Part v = true →
  (populated_payloads v = ["text"] → TextPart v = true) ∧
  (populated_payloads v = ["data"] → DataPart v = true).
Proof.
  rewrite Part_variants_union. simpl. rewrite !orb_true_iff.
  intros [H|[H|[H|[H|[H|[H|H]]]]]]; try done; split; intros Hpp; try done.
  all: first [ apply TextPart_payload in H | apply DataPart_payload in H
             | apply MediaPart_payload in H
             | apply ToolRequestPart_payload in H
             | apply ToolResponsePart_payload in H
             | apply PendingPart_payload in H as [H _] ];
       congruence.
Qed.

(** X13: a part whose [text] is populated is a [TextPart] and its text is
    a string; a part whose [data] is populated is a [DataPart] and its data
    is a record, not a primitive.  So a value with a number for text or a
    string for data is no [Part]. *)
Theorem text_and_data_types (v x : value) :
  Part v = true → is_undefined x = false →
  (get "text" v = Some x → TextPart v = true ∧ ∃ s, x = VStr s) ∧
  (get "data" v = Some x → DataPart v = true ∧ t_record_any x = true).
Proof.
  intros HP Hx. destruct (Part_variant_of_payload v HP) as [Htext Hdata]. split.
  - intros Hget. assert (TextPart v = true) as HT.
    { apply Htext, Part_populated; try done; [apply list_elem_of_here|].
      unfold populated. by rewrite Hget, Hx. }
    split; [done|]. destruct (t_inter_object_inv _ _ v HT) as [props ->].
    unfold TextPart, t_inter in HT. apply andb_true_iff in HT as [_ HT].
    rewrite t_object_cons, andb_true_iff, has_prop_required_iff in HT.
    destruct HT as [(y & Hy & Hs) _]. simpl in Hget.
    assert (y = x) as -> by congruence. by apply t_string_inv.
  - intros Hget. assert (DataPart v = true) as HD.
    { apply Hdata, Part_populated; try done;
        [apply list_elem_of_further, list_elem_of_here|].
      unfold populated. by rewrite Hget, Hx. }
    split; [done|]. destruct (t_inter_object_inv _ _ v HD) as [props ->].
    unfold DataPart, t_inter in HD. apply andb_true_iff in HD as [_ HD].
    rewrite t_object_cons, andb_true_iff, has_prop_required_iff in HD.
    destruct HD as [(y & Hy & Hs) _]. simpl in Hget.
    by assert (y = x) as -> by congruence.
Qed.

(** The text of [hello_part]. *)
Lemma text_and_data_types_witness :
  Part hello_part = true ∧ TextPart hello_part = true ∧
  ∃ s, VStr "Hello Ana" = VStr s.
Proof.
  assert (Part hello_part = true) as HP by (vm_compute; reflexivity).
  split; [exact HP|].
  destruct (text_and_data_types hello_part (VStr "Hello Ana") HP eq_refl)
    as [H _].
  apply H. vm_compute. reflexivity.
Defined.

(** X14: a part carries one payload at most: writing a second payload
    property, with any value but [undefined], to a part that populates a
    payload leaves no [Part]. *)
Theorem second_payload_rejected (v x : value) (k k' : string) :
  Part v = true → populated k v = true →
  k ∈ payload_fields → k' ∈ payload_fields → k' ≠ k →
  is_undefined x = false →
  Part (assign k' x v) = false.
Proof.
  intros HP Hk Hin Hin' Hne Hx.
  destruct v as [| | | | | |props| | |]; try done.
  assert (populated k' (assign k' x (VObj props)) = true) as Hk'.
  { unfold populated; simpl. by rewrite lookup_insert_eq, Hx. }
  assert (populated k (assign k' x (VObj props)) = true) as Hk2.
  { unfold populated in *; simpl in *. by rewrite lookup_insert_ne. }
  destruct (Part (assign k' x (VObj props))) eqn:E; [|done].
  pose proof (Part_populated k _ Hin Hk2 E) as H1.
  pose proof (Part_populated k' _ Hin' Hk' E) as H2.
  congruence.
Qed.

(** The part [hello_part] given data next to its text. *)
Lemma second_payload_rejected_witness :
  Part hello_part = true ∧
  Part (assign "data" (obj []) hello_part) = false.
Proof.
  assert (Part hello_part = true) as HP by (vm_compute; reflexivity).
  split; [exact HP|].
  apply (second_payload_rejected hello_part (obj []) "text" "data" HP).
  - vm_compute. reflexivity.
  - apply list_elem_of_here.
  - apply list_elem_of_further, list_elem_of_here.
  - discriminate.
  - reflexivity.
Defined.

Lemma fill_pending (k : string) (T : ty) (v x : value) :
  PendingPart v = true → T x = true →
  t_inter (t_object (Omit EmptyPart k)) (t_object [ k :! T ]) (assign k x v) = true.
Proof.
  intros Hv Hx. destruct (t_inter_object_inv _ _ v Hv) as [props ->].
  unfold PendingPart, t_inter in *. apply andb_true_iff in Hv as [Hv _].
  apply andb_true_iff. split.
  - apply t_object_assign; [apply takes_Omit|]. by apply t_object_Omit.
  - cbn [assign]. rewrite t_object_cons, t_object_nil, andb_true_r.
    apply has_prop_required_iff. exists x. split; [apply lookup_insert_eq | done].
Qed.

Lemma payload_of_variant (k : string) (T : ty) (w x : value) :
  t_inter (t_object (Omit EmptyPart k)) (t_object [ k :! T ]) w = true →
  get k w = Some x → T x = true.
Proof.
  intros Hw Hget. destruct (t_inter_object_inv _ _ w Hw) as [props ->].
  unfold t_inter in Hw. apply andb_true_iff in Hw as [_ Hw].
  rewrite t_object_cons, andb_true_iff, has_prop_required_iff in Hw.
  destruct Hw as [(y & Hy & HT) _]. simpl in Hget. congruence.
Qed.

(** X15: a pending part can be filled in place.  Given the payload of any
    part of a payload variant, it becomes a part of that variant, and still
    carries the pending mark in its metadata. *)
Theorem pending_part_filled (V : ty) (v w x : value) (k : string) :
  PendingPart v = true →
  V ∈ payload_variants → V w = true →
  populated_payloads w = [k] → get k w = Some x →
  V (assign k x v) = true ∧ Part (assign k x v) = true ∧
  marked_pending (assign k x v).
Proof.
  intros Hv HV Hw Hpp Hget.
  assert (k ≠ "metadata" ∧ V (assign k x v) = true) as [Hk HVx].
  { unfold payload_variants in HV.
    repeat (apply elem_of_cons in HV as [ -> | HV]);
      [..|by apply elem_of_nil in HV].
    - pose proof (TextPart_payload w Hw) as E.
      assert (k = "text") as -> by congruence. split; [done|].
      eapply fill_pending, payload_of_variant; done.
    - pose proof (DataPart_payload w Hw) as E.
      assert (k = "data") as -> by congruence. split; [done|].
      eapply fill_pending, payload_of_variant; done.
    - pose proof (MediaPart_payload w Hw) as E.
      assert (k = "media") as -> by congruence. split; [done|].
      eapply fill_pending, payload_of_variant; done.
    - pose proof (ToolRequestPart_payload _ w Hw) as E.
      assert (k = "toolRequest") as -> by congruence. split; [done|].
      eapply fill_pending, payload_of_variant; done.
    - pose proof (ToolResponsePart_payload _ w Hw) as E.
      assert (k = "toolResponse") as -> by congruence. split; [done|].
      eapply fill_pending, payload_of_variant; done. }
  split; [done|]. split.
  - rewrite Part_variants_union. apply existsb_exists. exists V.
    split; [|done]. apply list_elem_of_In. unfold Part_variants.
    unfold payload_variants in HV.
    repeat (apply elem_of_cons in HV as [ -> | HV]);
      [..|by apply elem_of_nil in HV];
      repeat first [apply list_elem_of_here | apply list_elem_of_further].
  - apply PendingPart_payload in Hv as (_ & m & Hm & Hp).
    exists m. split; [|done]. destruct v; try done. simpl in *.
    by rewrite lookup_insert_ne.
Qed.

(** The placeholder [pending_part] filled with the response of the tool
    [search]. *)
Lemma pending_part_filled_witness :
  PendingPart pending_part = true ∧
  ToolResponsePart t_any search_response = true ∧
  (∃ x, get "toolResponse" search_response = Some x ∧
        ToolResponsePart t_any (assign "toolResponse" x pending_part) = true ∧
        marked_pending (assign "toolResponse" x pending_part)).
Proof.
  assert (PendingPart pending_part = true) as Hv by (vm_compute; reflexivity).
  assert (ToolResponsePart t_any search_response = true) as Hw
    by (vm_compute; reflexivity).
  split; [exact Hv|]. split; [exact Hw|].
  destruct (get "toolResponse" search_response) as [x|] eqn:Hget;
    [|vm_compute in Hget; discriminate Hget].
  exists x. split; [reflexivity|].
  destruct (pending_part_filled (ToolResponsePart t_any) pending_part
              search_response x "toolResponse" Hv) as (H1 & _ & H3).
  - do 4 apply list_elem_of_further. apply list_elem_of_here.
  - exact Hw.
  - vm_compute. reflexivity.
  - exact Hget.
  - split; [exact H1 | exact H3].
Defined.

(** *** The model configuration *)





(** *** Tool definitions *)

(** X17: what may be written to a [ToolDefinition]: a [name] that is a
    string, an [inputSchema] that is a [Schema], a [description] that is a
    string or [undefined], an [outputSchema] that is a [Schema] or
    [undefined], and anything at all under any other name.  A schema given
    as a string or as [null] is refused. *)
Theorem ToolDefinition_updates (d x : value) (k : string) :
  t_object ToolDefinition d = true →
  t_object ToolDefinition (assign "name" x d) = t_string x ∧
  t_object ToolDefinition (assign "inputSchema" x d) = Schema x ∧
  t_object ToolDefinition (assign "description" x d) =
    t_string x || is_undefined x ∧
  t_object ToolDefinition (assign "outputSchema" x d) =
    Schema x || is_undefined x ∧
  (k ∉ pname <$> ToolDefinition →
   t_object ToolDefinition (assign k x d) = true).
Proof.
  intros Hd. rewrite !t_object_assign_eq by done.
  unfold writable, ToolDefinition. cbn [forallb pname ptype poptional].
  repeat split.
  1-4: repeat first [ rewrite bool_decide_eq_true_2 by done
                    | rewrite bool_decide_eq_false_2 by done ];
       cbn [implb andb orb]; by rewrite ?orb_false_r, ?andb_true_r.
  - intros Hk. cbn [fmap list_fmap] in Hk.
    rewrite !bool_decide_eq_false_2; [done|..]; intros <-; apply Hk;
      repeat first [apply list_elem_of_here | apply list_elem_of_further].
Qed.

(** The tool [search_tool] with a schema given by name, and with a
    description. *)
Lemma ToolDefinition_updates_witness :
  t_object ToolDefinition search_tool = true ∧
  t_object ToolDefinition (assign "inputSchema" (VStr "Query") search_tool) = false ∧
  t_object ToolDefinition
    (assign "description" (VStr "Searches the web") search_tool) = true.
Proof.
  assert (t_object ToolDefinition search_tool = true) as Hd
    by (vm_compute; reflexivity).
  split; [exact Hd|]. split.
  - destruct (ToolDefinition_updates search_tool (VStr "Query") "x" Hd)
      as (_ & H & _).
    exact H.
  - destruct (ToolDefinition_updates search_tool (VStr "Searches the web") "x" Hd)
      as (_ & _ & H & _).
    exact H.
Defined.

(** X18: a definition that a [ToolResolver] returns at once can be put
    after the [toolDefs] of a [PromptMetadata]: the result is a
    [PromptMetadata] that lists it last. *)
Theorem resolved_tool_joins_toolDefs (ModelConfig : ty) (f : function)
    (p : value) (n : string) (props : gmap string value) :
  implements ToolResolver f →
  t_object (PromptMetadata ModelConfig) p = true →
  f [VStr n] = VObj props →
  t_object ToolDefinition (f [VStr n]) = true ∧
  t_object (PromptMetadata ModelConfig)
    (assign "toolDefs" (VArr (array_at "toolDefs" p ++ [f [VStr n]])) p) = true ∧
  last (array_at "toolDefs"
          (assign "toolDefs" (VArr (array_at "toolDefs" p ++ [f [VStr n]])) p))
    = Some (f [VStr n]).
Proof.
  intros Hf Hp Hres.
  assert (t_object ToolDefinition (f [VStr n]) = true) as Hd.
  { specialize (Hf [VStr n] eq_refl). simpl in Hf. unfold t_union in Hf.
    rewrite Hres in *. simpl in Hf. by rewrite !orb_false_r in Hf. }
  split; [done|]. split.
  - rewrite t_object_assign_eq by done. unfold writable, PromptMetadata.
    cbn [forallb app HasMetadata pname ptype poptional].
    rewrite !bool_decide_eq_false_2 by done.
    rewrite bool_decide_eq_true_2 by done. cbn [implb andb].
    rewrite andb_true_r, orb_true_iff. left. apply t_array_Forall.
    eexists. split; [done|]. apply Forall_app. split.
    + apply (array_at_Forall "toolDefs" true (t_object ToolDefinition)
               (PromptMetadata ModelConfig)); [|done].
      do 5 apply list_elem_of_further. apply list_elem_of_here.
    + by constructor.
  - destruct (t_object_inv _ _ Hp) as [pprops ->].
    rewrite array_at_assign. apply last_snoc.
Qed.

(** The tool that [search_registry] knows, joined to the tools of
    [greeting_metadata]. *)
Lemma resolved_tool_joins_toolDefs_witness :
  implements ToolResolver search_registry ∧
  t_object (PromptMetadata t_record_any) greeting_metadata = true ∧
  t_object (PromptMetadata t_record_any)
    (assign "toolDefs"
       (VArr (array_at "toolDefs" greeting_metadata ++
              [search_registry [VStr "search"]]))
       greeting_metadata) = true.
Proof.
  assert (t_object (PromptMetadata t_record_any) greeting_metadata = true) as Hp
    by (vm_compute; reflexivity).
  split; [exact search_registry_implements|]. split; [exact Hp|].
  destruct (search_registry [VStr "search"]) as [| | | | | |props| | |] eqn:E;
    try (vm_compute in E; discriminate E).
  rewrite <- E.
  destruct (resolved_tool_joins_toolDefs t_record_any search_registry
              greeting_metadata "search" props search_registry_implements Hp E)
    as (_ & H & _).
  exact H.
Defined.
